(** * Flamenco add-on: Manager information cache, fetch and refresh

    A shallow embedding of [addon/flamenco/manager_info.py],
    [addon/flamenco/comms.py] and [addon/flamenco/worker_tags.py].

    Python values are modelled as follows.
    - [str] is [string], one character per code point below 256.
    - Exceptions are values of [exn]; a computation that may raise returns
      a [result].
    - Module globals, the scene, the window manager and the cache file make
      up the record [World]; a function with effects is a state transformer
      [M A].
    - [json] is the tree of [dict], [list], [str], [int], [bool] and [None]
      that the [json] module reads and writes; floating point numbers are
      left out. *)

From Stdlib Require Import Bool Ascii String List ZArith NArith Lia.
From Stdlib Require Import DecimalString DecimalN DecimalPos.
Import ListNotations.
Open Scope string_scope.
Set Warnings "-register-all".

(** ** Python exceptions and results *)

Module Py.

(** The exception classes the three modules raise, catch or let through.
    [SchemaError] is what the generated client raises for a value that
    does not fit a schema, [RecursionError] what the interpreter raises at
    its recursion limit, and [OtherError] stands for any class that none
    of the [except] clauses of the sources names. *)
Inductive exn_class : Type :=
| ApiException
| MaxRetryError
| HTTPError
| FetchError
| LoadError
| FileNotFoundError
| OSError
| JSONDecodeError
| KeyError
| TypeError
| SchemaError
| RecursionError
| OtherError.

Definition exn_class_eqb (a b : exn_class) : bool :=
  match a, b with
  | ApiException, ApiException | MaxRetryError, MaxRetryError
  | HTTPError, HTTPError | FetchError, FetchError | LoadError, LoadError
  | FileNotFoundError, FileNotFoundError | OSError, OSError
  | JSONDecodeError, JSONDecodeError | KeyError, KeyError
  | TypeError, TypeError | SchemaError, SchemaError
  | RecursionError, RecursionError | OtherError, OtherError => true
  | _, _ => false
  end.

(** [issubclass c p]: urllib3's [MaxRetryError] derives from [HTTPError],
    and [FileNotFoundError] from [OSError]. *)
Definition issubclass (c p : exn_class) : bool :=
  exn_class_eqb c p ||
  match c, p with
  | MaxRetryError, HTTPError => true
  | FileNotFoundError, OSError => true
  | _, _ => false
  end.

(** An exception instance: its class and [str(ex)]. *)
Record exn : Type := Exn { exn_cls : exn_class; exn_str : string }.

Definition isinstance (ex : exn) (c : exn_class) : bool :=
  issubclass (exn_cls ex) c.

Inductive result (A : Type) : Type :=
| Ok (a : A)
| Raise (ex : exn).
Arguments Ok {A} a.
Arguments Raise {A} ex.

Definition rbind {A B} (r : result A) (k : A -> result B) : result B :=
  match r with
  | Ok a => k a
  | Raise ex => Raise ex
  end.

Section Rmap.
Context {A B : Type} (f : A -> result B).

(** [[f(x) for x in l]], stopping at the first [f(x)] that raises. *)
Fixpoint rmap (l : list A) : result (list B) :=
  match l with
  | [] => Ok []
  | x :: l' => rbind (f x) (fun y => rbind (rmap l') (fun ys => Ok (y :: ys)))
  end.

End Rmap.

(** *** Characters and strings *)

Definition quote_char : ascii := "034"%char.
Definition squote_char : ascii := "039"%char.
Definition backslash : ascii := "092"%char.
Definition newline : ascii := "010"%char.
Definition tab_char : ascii := "009"%char.
Definition return_char : ascii := "013"%char.
Definition backspace_char : ascii := "008"%char.
Definition formfeed_char : ascii := "012"%char.

Definition chr (c : ascii) : string := String c EmptyString.

Definition hexdigit (n : N) : ascii :=
  ascii_of_N (if (n <? 10)%N then 48 + n else 87 + n).

(** [str.lower] on code points below 256. *)
Definition lower_char (c : ascii) : ascii :=
  let n := N_of_ascii c in
  if ((65 <=? n) && (n <=? 90))%N then ascii_of_N (n + 32)
  else if ((192 <=? n) && (n <=? 222) && negb (n =? 215))%N
       then ascii_of_N (n + 32)
       else c.

Fixpoint lower (s : string) : string :=
  match s with
  | EmptyString => EmptyString
  | String c s' => String (lower_char c) (lower s')
  end.

(** [s.rstrip(ch)] for a one-character argument. *)
Fixpoint rstrip (ch : ascii) (s : string) : string :=
  match s with
  | EmptyString => EmptyString
  | String c s' =>
      match rstrip ch s' with
      | EmptyString => if Ascii.eqb c ch then EmptyString else chr c
      | r => String c r
      end
  end.

Fixpoint contains_char (ch : ascii) (s : string) : bool :=
  match s with
  | EmptyString => false
  | String c s' => Ascii.eqb c ch || contains_char ch s'
  end.

(** [str.isprintable] for one code point below 256. *)
Definition isprintable (c : ascii) : bool :=
  let n := N_of_ascii c in
  (((32 <=? n) && (n <=? 126)) || ((161 <=? n) && negb (n =? 173)))%N.

(** One character of [repr(s)], the string being delimited by [q]. *)
Definition repr_char (q c : ascii) : string :=
  let n := N_of_ascii c in
  if Ascii.eqb c q || Ascii.eqb c backslash then String backslash (chr c)
  else if Ascii.eqb c tab_char then String backslash "t"
  else if Ascii.eqb c newline then String backslash "n"
  else if Ascii.eqb c return_char then String backslash "r"
  else if isprintable c then chr c
  else String backslash
         (String "x" (String (hexdigit (n / 16)) (chr (hexdigit (n mod 16))))).

Fixpoint repr_body (q : ascii) (s : string) : string :=
  match s with
  | EmptyString => EmptyString
  | String c s' => repr_char q c ++ repr_body q s'
  end.

(** [repr(s)] of a [str]: single quotes, unless the string holds a single
    quote and no double quote. *)
Definition repr (s : string) : string :=
  let q := if contains_char squote_char s && negb (contains_char quote_char s)
           then quote_char else squote_char in
  String q (repr_body q s ++ chr q).

(** [sub in s] for strings. *)
Fixpoint str_in (sub s : string) : bool :=
  String.prefix sub s ||
  match s with
  | EmptyString => false
  | String _ s' => str_in sub s'
  end.

End Py.
Export Py.

(** ** The [json] module

    [dumps] is [json.dumps(o, indent="  ")] on a tree of JSON values (the
    default [ensure_ascii=True], item separator [","] and key separator
    [": "]); [loads] is [json.loads], [None] standing for
    [json.JSONDecodeError]. Number literals with a fraction or an exponent,
    the constants [NaN] and [Infinity], and escapes of code points above
    255 denote values outside this model and are rejected. *)

Module Json.

Inductive json : Type :=
| JNull
| JBool (b : bool)
| JInt (z : Z)
| JStr (s : string)
| JList (l : list json)
| JDict (d : list (string * json)).

(** A [dict] has each key once: [wf] says so for every [dict] of a tree. *)
Fixpoint distinct (l : list string) : bool :=
  match l with
  | [] => true
  | k :: l' => negb (existsb (String.eqb k) l') && distinct l'
  end.

Fixpoint wf (v : json) : bool :=
  match v with
  | JList l => forallb wf l
  | JDict d => distinct (map fst d) && forallb (fun kv => wf (snd kv)) d
  | _ => true
  end.

(** [d[k]] and [d[k] = v] on the items of a [dict], in insertion order. *)
Fixpoint lookup {A} (k : string) (d : list (string * A)) : option A :=
  match d with
  | [] => None
  | (k', v) :: d' => if String.eqb k' k then Some v else lookup k d'
  end.

Fixpoint dict_set {A} (k : string) (v : A) (d : list (string * A))
  : list (string * A) :=
  match d with
  | [] => [(k, v)]
  | (k', v') :: d' =>
      if String.eqb k' k then (k', v) :: d' else (k', v') :: dict_set k v d'
  end.

(** [dict(pairs)]. *)
Definition dict_of_pairs {A} (pairs : list (string * A)) : list (string * A) :=
  fold_left (fun d kv => dict_set (fst kv) (snd kv) d) pairs [].

(** *** Encoding *)

Definition escape_char (c : ascii) : string :=
  let n := N_of_ascii c in
  if Ascii.eqb c quote_char then String backslash (chr quote_char)
  else if Ascii.eqb c backslash then String backslash (chr backslash)
  else if Ascii.eqb c newline then String backslash "n"
  else if Ascii.eqb c return_char then String backslash "r"
  else if Ascii.eqb c tab_char then String backslash "t"
  else if Ascii.eqb c backspace_char then String backslash "b"
  else if Ascii.eqb c formfeed_char then String backslash "f"
  else if ((32 <=? n) && (n <=? 126))%N then chr c
  else String backslash
         (String "u" (String "0" (String "0"
            (String (hexdigit (n / 16)) (chr (hexdigit (n mod 16))))))).

Fixpoint escape (s : string) : string :=
  match s with
  | EmptyString => EmptyString
  | String c s' => escape_char c ++ escape s'
  end.

Definition encode_basestring_ascii (s : string) : string :=
  String quote_char (escape s ++ chr quote_char).

Definition encode_int (z : Z) : string :=
  (if (z <? 0)%Z then "-" else "") ++
  NilZero.string_of_uint (N.to_uint (Z.abs_N z)).

Fixpoint indent (level : nat) : string :=
  match level with
  | O => EmptyString
  | S n => "  " ++ indent n
  end.

Definition newline_indent (level : nat) : string :=
  String newline (indent level).

Fixpoint join (sep : string) (items : list string) : string :=
  match items with
  | [] => EmptyString
  | [x] => x
  | x :: rest => x ++ sep ++ join sep rest
  end.

(** A container with its items, one per line at [level + 1]. *)
Definition container (opening closing : string) (level : nat)
  (items : list string) : string :=
  match items with
  | [] => opening ++ closing
  | _ =>
      opening ++ newline_indent (S level) ++
      join ("," ++ newline_indent (S level)) items ++
      newline_indent level ++ closing
  end.

Fixpoint iterencode (level : nat) (v : json) : string :=
  match v with
  | JNull => "null"
  | JBool true => "true"
  | JBool false => "false"
  | JInt z => encode_int z
  | JStr s => encode_basestring_ascii s
  | JList l => container "[" "]" level (map (iterencode (S level)) l)
  | JDict d =>
      container "{" "}" level
        (map (fun kv =>
                encode_basestring_ascii (fst kv) ++ ": " ++
                iterencode (S level) (snd kv)) d)
  end.

Definition dumps (v : json) : string := iterencode 0 v.

(** *** Decoding: scanner *)

Inductive token : Type :=
| TLBrace | TRBrace | TLBracket | TRBracket | TColon | TComma
| TString (s : string)
| TInt (z : Z)
| TTrue | TFalse | TNull.

(** Where the scanner is: between tokens, inside a string literal (with
    the characters decoded so far), after a backslash, inside a [\u]
    escape (digits still to read and the code so far), inside a number
    literal, or inside one of the words [true], [false] and [null]. *)
Inductive lstate : Type :=
| LStart
| LStr (acc : string)
| LEsc (acc : string)
| LUni (acc : string) (k : nat) (code : N)
| LNum (neg : bool) (digits : string)
| LWord (expect : string) (t : token).

Definition is_whitespace (c : ascii) : bool :=
  Ascii.eqb c " " || Ascii.eqb c tab_char || Ascii.eqb c newline
  || Ascii.eqb c return_char.

Definition is_digit (c : ascii) : bool :=
  let n := N_of_ascii c in ((48 <=? n) && (n <=? 57))%N.

Definition hexval (c : ascii) : option N :=
  let n := N_of_ascii c in
  if ((48 <=? n) && (n <=? 57))%N then Some (n - 48)%N
  else if ((97 <=? n) && (n <=? 102))%N then Some (n - 87)%N
  else if ((65 <=? n) && (n <=? 70))%N then Some (n - 55)%N
  else None.

(** The integer a literal denotes. A literal is an optional minus sign
    and then either a lone zero or digits that start with a non-zero one:
    a digit string that is the decimal writing of its own value. *)
Definition number_token (neg : bool) (digits : string) : option token :=
  match NilZero.uint_of_string digits with
  | Some u =>
      let n := N.of_uint u in
      if String.eqb (NilZero.string_of_uint (N.to_uint n)) digits
      then Some (TInt (if neg then - Z.of_N n else Z.of_N n)%Z)
      else None
  | None => None
  end.

Definition snoc (s : string) (c : ascii) : string := s ++ chr c.

Definition start_char (c : ascii) : option (list token * lstate) :=
  if is_whitespace c then Some ([], LStart)
  else if Ascii.eqb c "{" then Some ([TLBrace], LStart)
  else if Ascii.eqb c "}" then Some ([TRBrace], LStart)
  else if Ascii.eqb c "[" then Some ([TLBracket], LStart)
  else if Ascii.eqb c "]" then Some ([TRBracket], LStart)
  else if Ascii.eqb c ":" then Some ([TColon], LStart)
  else if Ascii.eqb c "," then Some ([TComma], LStart)
  else if Ascii.eqb c quote_char then Some ([], LStr "")
  else if Ascii.eqb c "-" then Some ([], LNum true "")
  else if is_digit c then Some ([], LNum false (chr c))
  else if Ascii.eqb c "t" then Some ([], LWord "rue" TTrue)
  else if Ascii.eqb c "f" then Some ([], LWord "alse" TFalse)
  else if Ascii.eqb c "n" then Some ([], LWord "ull" TNull)
  else None.

Definition unescape (c : ascii) : option ascii :=
  if Ascii.eqb c quote_char || Ascii.eqb c backslash || Ascii.eqb c "/"
  then Some c
  else if Ascii.eqb c "b" then Some backspace_char
  else if Ascii.eqb c "f" then Some formfeed_char
  else if Ascii.eqb c "n" then Some newline
  else if Ascii.eqb c "r" then Some return_char
  else if Ascii.eqb c "t" then Some tab_char
  else None.

Definition step (st : lstate) (c : ascii) : option (list token * lstate) :=
  match st with
  | LStart => start_char c
  | LStr acc =>
      if Ascii.eqb c quote_char then Some ([TString acc], LStart)
      else if Ascii.eqb c backslash then Some ([], LEsc acc)
      else if (N_of_ascii c <? 32)%N then None
      else Some ([], LStr (snoc acc c))
  | LEsc acc =>
      if Ascii.eqb c "u" then Some ([], LUni acc 4 0%N)
      else match unescape c with
           | Some c' => Some ([], LStr (snoc acc c'))
           | None => None
           end
  | LUni acc k code =>
      match hexval c with
      | Some h =>
          let code' := (16 * code + h)%N in
          match k with
          | 1 => if (code' <? 256)%N
                 then Some ([], LStr (snoc acc (ascii_of_N code')))
                 else None
          | S k' => Some ([], LUni acc k' code')
          | O => None
          end
      | None => None
      end
  | LNum neg digits =>
      if is_digit c then Some ([], LNum neg (snoc digits c))
      else if Ascii.eqb c "." || Ascii.eqb c "e" || Ascii.eqb c "E" then None
      else match number_token neg digits, start_char c with
           | Some t, Some (ts, st') => Some (t :: ts, st')
           | _, _ => None
           end
  | LWord expect t =>
      match expect with
      | String e EmptyString =>
          if Ascii.eqb c e then Some ([t], LStart) else None
      | String e rest =>
          if Ascii.eqb c e then Some ([], LWord rest t) else None
      | EmptyString => None
      end
  end.

Definition finish (st : lstate) : option (list token) :=
  match st with
  | LStart => Some []
  | LNum neg digits =>
      match number_token neg digits with
      | Some t => Some [t]
      | None => None
      end
  | _ => None
  end.

Fixpoint scan (st : lstate) (s : string) : option (list token) :=
  match s with
  | EmptyString => finish st
  | String c s' =>
      match step st c with
      | Some (ts, st') =>
          match scan st' s' with
          | Some rest => Some (ts ++ rest)%list
          | None => None
          end
      | None => None
      end
  end.

(** *** Decoding: values from tokens

    [fuel] bounds the nesting depth and the number of items read; the
    number of tokens is always enough. *)

Fixpoint parse_value (fuel : nat) (ts : list token)
  : option (json * list token) :=
  match fuel with
  | O => None
  | S fuel' =>
      match ts with
      | TNull :: r => Some (JNull, r)
      | TTrue :: r => Some (JBool true, r)
      | TFalse :: r => Some (JBool false, r)
      | TInt z :: r => Some (JInt z, r)
      | TString s :: r => Some (JStr s, r)
      | TLBracket :: TRBracket :: r => Some (JList [], r)
      | TLBracket :: r =>
          match parse_items fuel' r with
          | Some (l, r') => Some (JList l, r')
          | None => None
          end
      | TLBrace :: TRBrace :: r => Some (JDict [], r)
      | TLBrace :: r =>
          match parse_pairs fuel' r with
          | Some (pairs, r') => Some (JDict (dict_of_pairs pairs), r')
          | None => None
          end
      | _ => None
      end
  end
with parse_items (fuel : nat) (ts : list token)
  : option (list json * list token) :=
  match fuel with
  | O => None
  | S fuel' =>
      match parse_value fuel' ts with
      | Some (v, TComma :: r) =>
          match parse_items fuel' r with
          | Some (l, r') => Some (v :: l, r')
          | None => None
          end
      | Some (v, TRBracket :: r) => Some ([v], r)
      | _ => None
      end
  end
with parse_pairs (fuel : nat) (ts : list token)
  : option (list (string * json) * list token) :=
  match fuel with
  | O => None
  | S fuel' =>
      match ts with
      | TString k :: TColon :: r =>
          match parse_value fuel' r with
          | Some (v, TComma :: r') =>
              match parse_pairs fuel' r' with
              | Some (l, r'') => Some ((k, v) :: l, r'')
              | None => None
              end
          | Some (v, TRBrace :: r') => Some ([(k, v)], r')
          | _ => None
          end
      | _ => None
      end
  end.

(** [json.loads] within the values above. [None] is for a text that is
    no JSON and also for one that holds what these values leave out: a
    number with a fraction or an exponent, a [\u] escape above [00ff],
    [NaN] or [Infinity]. *)
Definition loads (s : string) : option json :=
  match scan LStart s with
  | Some ts =>
      match parse_value (S (length ts)) ts with
      | Some (v, []) => Some v
      | _ => None
      end
  | None => None
  end.

(** *** The tokens of an encoded value

    What the scanner is expected to read from [dumps v]. *)

Fixpoint separated (items : list (list token)) : list token :=
  match items with
  | [] => []
  | [x] => x
  | x :: rest => x ++ TComma :: separated rest
  end.

Fixpoint tokens (v : json) : list token :=
  match v with
  | JNull => [TNull]
  | JBool true => [TTrue]
  | JBool false => [TFalse]
  | JInt z => [TInt z]
  | JStr s => [TString s]
  | JList l => TLBracket :: separated (map tokens l) ++ [TRBracket]
  | JDict d =>
      TLBrace
        :: separated
             (map (fun kv => TString (fst kv) :: TColon :: tokens (snd kv)) d)
        ++ [TRBrace]
  end.

(** Text that ends a value written by [dumps]: nothing, a comma or a new
    line. *)
Definition boundary (rest : string) : bool :=
  match rest with
  | EmptyString => true
  | String c _ => Ascii.eqb c "," || Ascii.eqb c newline
  end.

(** [ts] put before what a scan returns. *)
Definition with_tokens (ts : list token) (r : option (list token))
  : option (list token) :=
  match r with
  | Some rest => Some (ts ++ rest)%list
  | None => None
  end.

(** [parse_value] reads [v] back from its tokens, given more fuel than
    there are tokens. *)
Definition parses (v : json) : Prop :=
  wf v = true ->
  forall fuel rest,
    (length (tokens v) < fuel)%nat ->
    parse_value fuel (tokens v ++ rest) = Some (v, rest).

(** [fuel] is enough for [parse]: whatever it reads with [fuel], it reads
    with any fuel above the number of tokens it used. *)
Definition enough {A} (parse : nat -> list token -> option (A * list token))
  (fuel : nat) : Prop :=
  forall ts a rest,
    parse fuel ts = Some (a, rest) ->
    exists used,
      ts = (used ++ rest)%list
      /\ forall fuel', (length used < fuel')%nat ->
                       parse fuel' ts = Some (a, rest).

(** Induction on a tree, with the hypothesis for every item of a [list]
    and every value of a [dict]. *)
Section JsonInd.
Variable P : json -> Prop.
Hypothesis HNull : P JNull.
Hypothesis HBool : forall b, P (JBool b).
Hypothesis HInt : forall z, P (JInt z).
Hypothesis HStr : forall s, P (JStr s).
Hypothesis HList : forall l, Forall P l -> P (JList l).
Hypothesis HDict : forall d, Forall (fun kv => P (snd kv)) d -> P (JDict d).

Fixpoint json_induction (v : json) : P v :=
  match v with
  | JNull => HNull
  | JBool b => HBool b
  | JInt z => HInt z
  | JStr s => HStr s
  | JList l =>
      HList l
        ((fix items (l : list json) : Forall P l :=
            match l with
            | [] => Forall_nil P
            | x :: l' => Forall_cons x (json_induction x) (items l')
            end) l)
  | JDict d =>
      HDict d
        ((fix items (d : list (string * json))
            : Forall (fun kv => P (snd kv)) d :=
            match d with
            | [] => Forall_nil _
            | kv :: d' => Forall_cons kv (json_induction (snd kv)) (items d')
            end) d)
  end.

End JsonInd.

End Json.
Export Json.

(** ** The generated API client, [flamenco.manager]

    The package is generated from the Manager's OpenAPI description and is
    not part of the three modules embedded here. *)

Module manager.

(** Modelled from the spec: the model class [FlamencoVersion] is absent;
    the spec gives it as name and version, both strings. *)
Module FlamencoVersion.
Record t : Type := Build { name : string; version : string }.
End FlamencoVersion.

(** Modelled from the spec: the model class [SharedStorageLocation] is
    absent; the spec calls it a location descriptor keyed by platform and
    usage class (the audience). *)
Module SharedStorageLocation.
Record t : Type :=
  Build { location : string; audience : string; platform : string }.
End SharedStorageLocation.

(** Modelled from the spec: the model class of one job type is absent; the
    spec gives it a name, the stable identifier, and other attributes
    defined by the schema, kept here as the JSON values they are sent as. *)
Module AvailableJobType.
Record t : Type :=
  Build { name : string; other_attributes : list (string * json) }.
End AvailableJobType.

(** Modelled from the spec: the model class [AvailableJobTypes] is absent;
    the spec gives it as an ordered sequence of job types. *)
Module AvailableJobTypes.
Record t : Type := Build { job_types : list AvailableJobType.t }.
End AvailableJobTypes.

(** Modelled from the spec: the model class of one worker tag is absent;
    the spec gives it an id, a name and an optional description. *)
Module WorkerTag.
Record t : Type :=
  Build { id : string; name : string; description : option string }.
End WorkerTag.

(** Modelled from the spec: the model class [WorkerTagList] is absent;
    the spec gives it as an ordered sequence of worker tags, which
    [worker_tags._get_enum_items] reads as its attribute [tags]. *)
Module WorkerTagList.
Record t : Type := Build { tags : list WorkerTag.t }.
End WorkerTagList.

(** The four model classes that [ManagerInfo.type_info] names. *)
Inductive api_type : Type :=
| TFlamencoVersion
| TSharedStorageLocation
| TAvailableJobTypes
| TWorkerTagList.

(** Modelled from the spec: the base class [OpenApiModel] is absent; an
    instance is one of the four typed remote objects of the spec. *)
Inductive OpenApiModel : Type :=
| MFlamencoVersion (v : FlamencoVersion.t)
| MSharedStorageLocation (v : SharedStorageLocation.t)
| MAvailableJobTypes (v : AvailableJobTypes.t)
| MWorkerTagList (v : WorkerTagList.t).

(** Modelled from the spec: [OpenApiModel.to_dict] is absent; the spec
    has each object converted to a mapping of its own fields. *)
Definition job_type_to_dict (jt : AvailableJobType.t) : json :=
  JDict (("name", JStr (AvailableJobType.name jt))
           :: AvailableJobType.other_attributes jt).

Definition worker_tag_to_dict (tag : WorkerTag.t) : json :=
  JDict ([("id", JStr (WorkerTag.id tag)); ("name", JStr (WorkerTag.name tag))]
           ++ match WorkerTag.description tag with
              | Some d => [("description", JStr d)]
              | None => []
              end)%list.

Definition to_dict (o : OpenApiModel) : json :=
  match o with
  | MFlamencoVersion v =>
      JDict [("name", JStr (FlamencoVersion.name v));
             ("version", JStr (FlamencoVersion.version v))]
  | MSharedStorageLocation v =>
      JDict [("location", JStr (SharedStorageLocation.location v));
             ("audience", JStr (SharedStorageLocation.audience v));
             ("platform", JStr (SharedStorageLocation.platform v))]
  | MAvailableJobTypes v =>
      JDict [("job_types",
              JList (map job_type_to_dict (AvailableJobTypes.job_types v)))]
  | MWorkerTagList v =>
      JDict [("tags", JList (map worker_tag_to_dict (WorkerTagList.tags v)))]
  end.

(** Modelled from the spec: [validate_and_convert_types] is absent; the
    spec has it check a mapping against the schema of the expected type
    (required fields present, values of the declared type) and fail
    otherwise. The failure is raised as [SchemaError], an exception of the
    generated client, which is no [JSONDecodeError]. *)
Definition schema_error {A} (path : list string) (what : string) : result A :=
  Raise (Exn SchemaError (join "." path ++ ": " ++ what)).

Definition required_str (path : list string) (d : list (string * json))
  (key : string) : result string :=
  match lookup key d with
  | Some (JStr s) => Ok s
  | Some _ => schema_error (path ++ [key])%list "a str is required"
  | None => schema_error (path ++ [key])%list "the field is required"
  end.

Definition optional_str (path : list string) (d : list (string * json))
  (key : string) : result (option string) :=
  match lookup key d with
  | Some (JStr s) => Ok (Some s)
  | Some _ => schema_error (path ++ [key])%list "a str is required"
  | None => Ok None
  end.

Definition required_list (path : list string) (d : list (string * json))
  (key : string) : result (list json) :=
  match lookup key d with
  | Some (JList l) => Ok l
  | Some _ => schema_error (path ++ [key])%list "a list is required"
  | None => schema_error (path ++ [key])%list "the field is required"
  end.

Definition as_dict (path : list string) (v : json)
  : result (list (string * json)) :=
  match v with
  | JDict d => Ok d
  | _ => schema_error path "a dict is required"
  end.

Definition job_type_from_dict (path : list string) (v : json)
  : result AvailableJobType.t :=
  rbind (as_dict path v) (fun d =>
  rbind (required_str path d "name") (fun n =>
  Ok (AvailableJobType.Build n
        (filter (fun kv => negb (String.eqb (fst kv) "name")) d)))).

Definition worker_tag_from_dict (path : list string) (v : json)
  : result WorkerTag.t :=
  rbind (as_dict path v) (fun d =>
  rbind (required_str path d "id") (fun i =>
  rbind (required_str path d "name") (fun n =>
  rbind (optional_str path d "description") (fun descr =>
  Ok (WorkerTag.Build i n descr))))).

Definition validate_and_convert_types (input_value : json)
  (required_type : api_type) (path_to_item : list string)
  : result OpenApiModel :=
  rbind (as_dict path_to_item input_value) (fun d =>
  match required_type with
  | TFlamencoVersion =>
      rbind (required_str path_to_item d "name") (fun n =>
      rbind (required_str path_to_item d "version") (fun v =>
      Ok (MFlamencoVersion (FlamencoVersion.Build n v))))
  | TSharedStorageLocation =>
      rbind (required_str path_to_item d "location") (fun l =>
      rbind (required_str path_to_item d "audience") (fun a =>
      rbind (required_str path_to_item d "platform") (fun p =>
      Ok (MSharedStorageLocation (SharedStorageLocation.Build l a p)))))
  | TAvailableJobTypes =>
      rbind (required_list path_to_item d "job_types") (fun l =>
      rbind (rmap (job_type_from_dict (path_to_item ++ ["job_types"])%list) l)
        (fun jts => Ok (MAvailableJobTypes (AvailableJobTypes.Build jts))))
  | TWorkerTagList =>
      rbind (required_list path_to_item d "tags") (fun l =>
      rbind (rmap (worker_tag_from_dict (path_to_item ++ ["tags"])%list) l)
        (fun tags => Ok (MWorkerTagList (WorkerTagList.Build tags))))
  end).

(** Modelled from the spec: the API classes [MetaApi], [JobsApi] and
    [WorkerMgtApi] are absent; the spec gives the transport client four
    operations, each returning a schema-defined object or raising. *)
Record Manager : Type := {
  get_version : result FlamencoVersion.t;
  get_shared_storage : string -> string -> result SharedStorageLocation.t;
  get_job_types : result AvailableJobTypes.t;
  fetch_worker_tags : result WorkerTagList.t
}.

(** Modelled from the spec: the class [Configuration] is absent; the source
    makes one from the host to talk to. *)
Record Configuration : Type := { host : string }.

(** Modelled from the spec: the class [ApiClient] is absent; an object
    has its identity, the configuration it was made with and the Manager
    its calls reach. *)
Record ApiClient : Type := {
  client_id : nat;
  configuration : Configuration;
  remote : Manager
}.

End manager.
Export manager.

(** ** The dataclass [manager_info.ManagerInfo] *)

Module ManagerInfo.

(** The annotations of the four fields are made their types. *)
Record t : Type := Build {
  flamenco_version : FlamencoVersion.t;
  shared_storage : SharedStorageLocation.t;
  job_types : AvailableJobTypes.t;
  worker_tags : WorkerTagList.t
}.

Definition type_info : list (string * api_type) :=
  [("flamenco_version", TFlamencoVersion);
   ("shared_storage", TSharedStorageLocation);
   ("job_types", TAvailableJobTypes);
   ("worker_tags", TWorkerTagList)].

(** [(f.name, getattr(o, f.name))] for [f] in [dataclasses.fields(o)]. *)
Definition fields (o : t) : list (string * OpenApiModel) :=
  [("flamenco_version", MFlamencoVersion (flamenco_version o));
   ("shared_storage", MSharedStorageLocation (shared_storage o));
   ("job_types", MAvailableJobTypes (job_types o));
   ("worker_tags", MWorkerTagList (worker_tags o))].

(** The constructor called with keyword arguments: the generated
    [__init__] raises [TypeError]
    when a field is not given. The fields being typed here, a model of
    another class than the annotated one is refused as well. *)
Definition init (kwargs : list (string * OpenApiModel)) : result t :=
  match lookup "flamenco_version" kwargs, lookup "shared_storage" kwargs,
        lookup "job_types" kwargs, lookup "worker_tags" kwargs with
  | Some (MFlamencoVersion v), Some (MSharedStorageLocation s),
    Some (MAvailableJobTypes j), Some (MWorkerTagList w) =>
      if (length kwargs =? 4)%nat then Ok (Build v s j w)
      else Raise (Exn TypeError "__init__() got an unexpected keyword argument")
  | _, _, _, _ =>
      Raise (Exn TypeError "__init__() missing required positional arguments")
  end.

End ManagerInfo.

(** ** The state the three modules share *)

Module Runtime.

(** The cache file at [_json_filepath()]: absent, present but unreadable
    (reading raises [OSError] with the given text), or present with its
    text. Asking whether the file is there is taken not to raise, and a
    file that can be read to hold text in UTF-8. *)
Inductive file_state : Type :=
| Missing
| Unreadable (why : string)
| Contents (text : string).

(** Modelled from the spec: the host's scene is not part of the sources;
    the spec gives each of the two selections as an optional identifier. *)
Record Scene : Type := {
  flamenco_job_type : option string;
  flamenco_worker_tag : option string
}.

Record WindowManager : Type := { flamenco_status_ping : string }.

(** An item of an enum property: identifier, name, description. *)
Definition enum_item : Type := (string * string * string)%type.

Record World : Type := {
  (* manager_info *)
  _cached_manager_info : option ManagerInfo.t;
  cache_file : file_state;
  (* comms *)
  _flamenco_client : option ApiClient;
  objects : nat;
  closed : list nat;
  (* worker_tags *)
  _enum_items : list enum_item;
  (* job_types *)
  _available_job_types : list AvailableJobType.t;
  (* the objects handed to ping_manager *)
  scene : Scene;
  window_manager : WindowManager;
  (* what the process wrote *)
  stdout : list string;
  log : list string;
  (* the environment *)
  resource_path_user : string;
  platform_system : string;
  network : string -> Manager
}.

Definition set_cached_manager_info (v : option ManagerInfo.t) (w : World) :=
  {| _cached_manager_info := v; cache_file := cache_file w;
     _flamenco_client := _flamenco_client w; objects := objects w;
     closed := closed w; _enum_items := _enum_items w;
     _available_job_types := _available_job_types w; scene := scene w;
     window_manager := window_manager w; stdout := stdout w; log := log w;
     resource_path_user := resource_path_user w;
     platform_system := platform_system w; network := network w |}.

Definition set_cache_file (v : file_state) (w : World) :=
  {| _cached_manager_info := _cached_manager_info w; cache_file := v;
     _flamenco_client := _flamenco_client w; objects := objects w;
     closed := closed w; _enum_items := _enum_items w;
     _available_job_types := _available_job_types w; scene := scene w;
     window_manager := window_manager w; stdout := stdout w; log := log w;
     resource_path_user := resource_path_user w;
     platform_system := platform_system w; network := network w |}.

Definition set_flamenco_client (v : option ApiClient) (w : World) :=
  {| _cached_manager_info := _cached_manager_info w;
     cache_file := cache_file w;
     _flamenco_client := v; objects := objects w;
     closed := closed w; _enum_items := _enum_items w;
     _available_job_types := _available_job_types w; scene := scene w;
     window_manager := window_manager w; stdout := stdout w; log := log w;
     resource_path_user := resource_path_user w;
     platform_system := platform_system w; network := network w |}.

Definition set_objects (v : nat) (w : World) :=
  {| _cached_manager_info := _cached_manager_info w;
     cache_file := cache_file w;
     _flamenco_client := _flamenco_client w; objects := v;
     closed := closed w; _enum_items := _enum_items w;
     _available_job_types := _available_job_types w; scene := scene w;
     window_manager := window_manager w; stdout := stdout w; log := log w;
     resource_path_user := resource_path_user w;
     platform_system := platform_system w; network := network w |}.

Definition set_closed (v : list nat) (w : World) :=
  {| _cached_manager_info := _cached_manager_info w;
     cache_file := cache_file w;
     _flamenco_client := _flamenco_client w; objects := objects w;
     closed := v; _enum_items := _enum_items w;
     _available_job_types := _available_job_types w; scene := scene w;
     window_manager := window_manager w; stdout := stdout w; log := log w;
     resource_path_user := resource_path_user w;
     platform_system := platform_system w; network := network w |}.

Definition set_enum_items (v : list enum_item) (w : World) :=
  {| _cached_manager_info := _cached_manager_info w;
     cache_file := cache_file w;
     _flamenco_client := _flamenco_client w; objects := objects w;
     closed := closed w; _enum_items := v;
     _available_job_types := _available_job_types w; scene := scene w;
     window_manager := window_manager w; stdout := stdout w; log := log w;
     resource_path_user := resource_path_user w;
     platform_system := platform_system w; network := network w |}.

Definition set_available_job_types (v : list AvailableJobType.t) (w : World) :=
  {| _cached_manager_info := _cached_manager_info w;
     cache_file := cache_file w;
     _flamenco_client := _flamenco_client w; objects := objects w;
     closed := closed w; _enum_items := _enum_items w;
     _available_job_types := v; scene := scene w;
     window_manager := window_manager w; stdout := stdout w; log := log w;
     resource_path_user := resource_path_user w;
     platform_system := platform_system w; network := network w |}.

Definition set_scene (v : Scene) (w : World) :=
  {| _cached_manager_info := _cached_manager_info w;
     cache_file := cache_file w;
     _flamenco_client := _flamenco_client w; objects := objects w;
     closed := closed w; _enum_items := _enum_items w;
     _available_job_types := _available_job_types w; scene := v;
     window_manager := window_manager w; stdout := stdout w; log := log w;
     resource_path_user := resource_path_user w;
     platform_system := platform_system w; network := network w |}.

Definition set_window_manager (v : WindowManager) (w : World) :=
  {| _cached_manager_info := _cached_manager_info w;
     cache_file := cache_file w;
     _flamenco_client := _flamenco_client w; objects := objects w;
     closed := closed w; _enum_items := _enum_items w;
     _available_job_types := _available_job_types w; scene := scene w;
     window_manager := v; stdout := stdout w; log := log w;
     resource_path_user := resource_path_user w;
     platform_system := platform_system w; network := network w |}.

Definition set_stdout (v : list string) (w : World) :=
  {| _cached_manager_info := _cached_manager_info w;
     cache_file := cache_file w;
     _flamenco_client := _flamenco_client w; objects := objects w;
     closed := closed w; _enum_items := _enum_items w;
     _available_job_types := _available_job_types w; scene := scene w;
     window_manager := window_manager w; stdout := v; log := log w;
     resource_path_user := resource_path_user w;
     platform_system := platform_system w; network := network w |}.

Definition set_log (v : list string) (w : World) :=
  {| _cached_manager_info := _cached_manager_info w;
     cache_file := cache_file w;
     _flamenco_client := _flamenco_client w; objects := objects w;
     closed := closed w; _enum_items := _enum_items w;
     _available_job_types := _available_job_types w; scene := scene w;
     window_manager := window_manager w; stdout := stdout w; log := v;
     resource_path_user := resource_path_user w;
     platform_system := platform_system w; network := network w |}.

(** A computation with effects: from a world to a result and the world it
    leaves. What a computation changed before it raised stays changed. *)
Definition M (A : Type) : Type := World -> result A * World.

Definition ret {A} (a : A) : M A := fun w => (Ok a, w).

Definition raise {A} (c : exn_class) (msg : string) : M A :=
  fun w => (Raise (Exn c msg), w).

Definition bind {A B} (m : M A) (k : A -> M B) : M B :=
  fun w =>
    match m w with
    | (Ok a, w') => k a w'
    | (Raise ex, w') => (Raise ex, w')
    end.

(** A call that has no effect on the world. *)
Definition call {A} (r : result A) : M A := fun w => (r, w).

Definition get {A} (f : World -> A) : M A := fun w => (Ok (f w), w).

Definition modify (f : World -> World) : M unit := fun w => (Ok tt, f w).

(** [try: body / except ...]: [handlers ex] is the body of the first
    clause that matches [ex], if one does; otherwise [ex] goes on. *)
Definition try_except {A} (body : M A) (handlers : exn -> option (M A)) : M A :=
  fun w =>
    match body w with
    | (Ok a, w') => (Ok a, w')
    | (Raise ex, w') =>
        match handlers ex with
        | Some h => h w'
        | None => (Raise ex, w')
        end
    end.

(** [for x in l: body(x)]. *)
Fixpoint for_each {A} (body : A -> M unit) (l : list A) : M unit :=
  match l with
  | [] => ret tt
  | x :: rest => bind (body x) (fun _ => for_each body rest)
  end.

End Runtime.
Export Runtime.

Declare Scope py_scope.
Delimit Scope py_scope with py.
Notation "x <- m ;; k" := (bind m (fun x => k))
  (at level 61, m at next level, right associativity) : py_scope.
Notation "m ;; k" := (bind m (fun _ => k))
  (at level 61, right associativity) : py_scope.

Open Scope py_scope.

(** ** [addon/flamenco/manager_info.py] *)

Module manager_info.

(** The objects [json.dumps] can be handed: values the encoder writes
    itself, containers of objects, and instances of classes it knows
    nothing of. *)
Inductive pyobj : Type :=
| PJson (j : json)
| PList (l : list pyobj)
| PDict (d : list (string * pyobj))
| PModel (m : OpenApiModel)
| PManagerInfo (i : ManagerInfo.t)
| PObject.

(** [fetch]: the four remote calls in the order of the source; the first
    that raises ends the [try] block. *)
Definition fetch (api_client : ApiClient) : M ManagerInfo.t :=
  let meta_api := remote api_client in
  let jobs_api := remote api_client in
  let worker_mgt_api := remote api_client in
  fetched <-
    try_except
      (flamenco_version <- call (get_version meta_api) ;;
       system <- get platform_system ;;
       shared_storage <-
         call (get_shared_storage meta_api "users" (lower system)) ;;
       job_types <- call (get_job_types jobs_api) ;;
       worker_tags <- call (fetch_worker_tags worker_mgt_api) ;;
       ret (flamenco_version, shared_storage, job_types, worker_tags))
      (fun ex =>
         if isinstance ex ApiException then
           Some (raise FetchError ("Manager cannot be reached: " ++ exn_str ex))
         else if isinstance ex MaxRetryError then
           Some (raise FetchError "Manager cannot be reached")
         else if isinstance ex HTTPError then
           Some (raise FetchError ("Manager cannot be reached: " ++ exn_str ex))
         else None) ;;
  let '(flamenco_version, shared_storage, job_types, worker_tags) := fetched in
  let info :=
    ManagerInfo.Build flamenco_version shared_storage job_types worker_tags in
  modify (set_cached_manager_info (Some info)) ;;
  ret info.

(** [Encoder.default]. *)
Definition Encoder_default (o : pyobj) : result pyobj :=
  match o with
  | PModel m => Ok (PJson (to_dict m))
  | PManagerInfo i =>
      Ok (PDict (map (fun f => (fst f, PModel (snd f))) (ManagerInfo.fields i)))
  | _ => Raise (Exn TypeError "Object is not JSON serializable")
  end.

(** The tree [json.dumps(o, cls=...)] writes: an object the encoder does
    not know is replaced by what [default] returns for it, and that is
    encoded in turn. [limit] bounds how often in a row. *)
Section Encoding.
Variable default : pyobj -> result pyobj.

Fixpoint encode (limit : nat) : pyobj -> result json :=
  fix walk (o : pyobj) : result json :=
    match o with
    | PJson j => Ok j
    | PList l => rbind (rmap walk l) (fun js => Ok (JList js))
    | PDict d =>
        rbind (rmap (fun kv => rbind (walk (snd kv))
                                 (fun j => Ok (fst kv, j))) d)
              (fun items => Ok (JDict items))
    | _ =>
        match limit with
        | O => Raise (Exn RecursionError "maximum recursion depth exceeded")
        | S limit' => rbind (default o) (encode limit')
        end
    end.

End Encoding.

Definition recursion_limit : nat := 1000.

(** [json.dumps(o, indent="  ", cls=Encoder)]. *)
Definition dumps_Encoder (o : pyobj) : result string :=
  rbind (encode Encoder_default recursion_limit o) (fun j => Ok (dumps j)).

Definition _to_json (info : ManagerInfo.t) : result string :=
  dumps_Encoder (PManagerInfo info).

(** [json.loads(contents)]. *)
Definition json_loads (contents : string) : result json :=
  match loads contents with
  | Some v => Ok v
  | None => Raise (Exn JSONDecodeError "Expecting value")
  end.

(** [obj[name]] on what [json.loads] returned. *)
Definition getitem (obj : json) (name : string) : result json :=
  match obj with
  | JDict d =>
      match lookup name d with
      | Some v => Ok v
      | None => Raise (Exn KeyError (repr name))
      end
  | JList _ =>
      Raise (Exn TypeError "list indices must be integers or slices, not str")
  | JStr _ => Raise (Exn TypeError "string indices must be integers")
  | _ => Raise (Exn TypeError "object is not subscriptable")
  end.

Definition _from_json (contents : string) : result ManagerInfo.t :=
  rbind (json_loads contents) (fun json_dict =>
  rbind (rmap (fun entry : string * api_type =>
                 let (name, api_type) := entry in
                 rbind (getitem json_dict name) (fun item =>
                 rbind (validate_and_convert_types item api_type [name])
                   (fun api_model => Ok (name, api_model))))
              ManagerInfo.type_info)
    (fun api_models => ManagerInfo.init api_models)).

(** A path: the directory and the file name; [path_str] is [str(path)]
    with the POSIX separator. The user path is taken in the form pathlib
    keeps a path in, with no separator at its end and none doubled, so
    that joining is writing the separator in between. *)
Record Path : Type := { parent : string; name : string }.

Definition path_str (p : Path) : string := parent p ++ "/" ++ name p.

Definition _json_filepath : M Path :=
  user_path <- get resource_path_user ;;
  ret {| parent := user_path ++ "/config";
         name := "flamenco-manager-info.json" |}.

(** The file operations on the cache file. Making the directories and
    writing the text are taken to succeed. *)
Definition mkdir : M unit := ret tt.

Definition write_text (text : string) : M unit :=
  modify (set_cache_file (Contents text)).

Definition file_exists : M bool :=
  file <- get cache_file ;;
  ret (match file with
       | Missing => false
       | _ => true
       end).

Definition read_text : M string :=
  file <- get cache_file ;;
  match file with
  | Contents text => ret text
  | Unreadable why => raise OSError why
  | Missing => raise FileNotFoundError "No such file or directory"
  end.

Definition save (info : ManagerInfo.t) : M unit :=
  json_path <- _json_filepath ;;
  mkdir ;;
  as_json <- call (_to_json info) ;;
  write_text as_json.

Definition load : M ManagerInfo.t :=
  json_path <- _json_filepath ;;
  present <- file_exists ;;
  if negb present then
    raise FileNotFoundError
      (name json_path ++ " not found in " ++ parent json_path)
  else
    as_json <-
      try_except read_text
        (fun ex =>
           if isinstance ex OSError then
             Some (raise LoadError
                     ("Could not read " ++ path_str json_path ++ ": "
                        ++ exn_str ex))
           else None) ;;
    try_except (call (_from_json as_json))
      (fun ex =>
         if isinstance ex JSONDecodeError then
           Some (raise LoadError
                   ("Could not decode JSON in " ++ path_str json_path))
         else None).

Definition print (line : string) : M unit :=
  modify (fun w => set_stdout (stdout w ++ [line])%list w).

Definition load_into_cache : M (option ManagerInfo.t) :=
  modify (set_cached_manager_info None) ;;
  try_except
    (info <- load ;;
     modify (set_cached_manager_info (Some info)) ;;
     get _cached_manager_info)
    (fun ex =>
       if isinstance ex FileNotFoundError then Some (ret None)
       else if isinstance ex LoadError then
         Some (print ("Could not load Flamenco Manager info from disk: "
                        ++ exn_str ex) ;;
               ret None)
       else None).

Definition load_cached : M (option ManagerInfo.t) :=
  cached <- get _cached_manager_info ;;
  match cached with
  | Some info => ret (Some info)
  | None => load_into_cache
  end.

End manager_info.

(** ** [addon/flamenco/worker_tags.py] *)

Module worker_tags.

(** [getattr(tag, "description", "")]. *)
Definition description_or_empty (tag : WorkerTag.t) : string :=
  match WorkerTag.description tag with
  | Some d => d
  | None => ""
  end.

Definition item_of_tag (tag : WorkerTag.t) : enum_item :=
  (WorkerTag.id tag, WorkerTag.name tag, description_or_empty tag).

Definition _get_enum_items : M (list enum_item) :=
  manager <- manager_info.load_cached ;;
  match manager with
  | None =>
      modify (set_enum_items
                [("-", "-tags unknown-",
                  "Refresh to load the available Worker tags from the Manager")]) ;;
      get _enum_items
  | Some manager =>
      modify (set_enum_items
                [("-", "All",
                  "No specific tag assigned, any worker can handle this job")]) ;;
      for_each
        (fun tag =>
           modify (fun w =>
                     set_enum_items (_enum_items w ++ [item_of_tag tag])%list w))
        (WorkerTagList.tags (ManagerInfo.worker_tags manager)) ;;
      get _enum_items
  end.

End worker_tags.

(** ** The modules the refresh calls that are not embedded from source *)

Module job_types.

(** Modelled from the spec: [job_types.refresh_scene_properties] is
    absent; the spec makes the job types of the new snapshot the candidates
    of the job type selection. *)
Definition refresh_scene_properties (available_job_types : AvailableJobTypes.t)
  : M unit :=
  modify (set_available_job_types
            (AvailableJobTypes.job_types available_job_types)).

(** Modelled from the spec: the items of the job type selection are absent
    from the sources; the spec names the job-type names as its candidate
    identifiers. *)
Definition _get_job_types_enum_items : M (list enum_item) :=
  available <- get _available_job_types ;;
  ret (map (fun jt => (AvailableJobType.name jt, AvailableJobType.name jt, ""))
         available).

End job_types.

(** The two dynamic enum properties of the scene, as [ping_manager] uses
    them. Assigning an identifier that is not among the items raises
    [TypeError] (thrown when the old enum value no longer exists, as the
    source notes); [del scene[...]] removes the underlying stored value
    and raises [KeyError] when there is none. *)
Module bpy.

Inductive property : Type := flamenco_job_type_prop | flamenco_worker_tag_prop.

Definition items (p : property) : M (list enum_item) :=
  match p with
  | flamenco_job_type_prop => job_types._get_job_types_enum_items
  | flamenco_worker_tag_prop => worker_tags._get_enum_items
  end.

Definition stored (p : property) (s : Scene) : option string :=
  match p with
  | flamenco_job_type_prop => flamenco_job_type s
  | flamenco_worker_tag_prop => flamenco_worker_tag s
  end.

Definition store (p : property) (v : option string) (s : Scene) : Scene :=
  match p with
  | flamenco_job_type_prop =>
      {| flamenco_job_type := v; flamenco_worker_tag := flamenco_worker_tag s |}
  | flamenco_worker_tag_prop =>
      {| flamenco_job_type := flamenco_job_type s; flamenco_worker_tag := v |}
  end.

Definition identifier (item : enum_item) : string := fst (fst item).

(** Modelled from the spec: reading a selection is the host's; the spec
    has an unset selection read as empty, and a read changes nothing.
    [getattr(scene, p, "")]. *)
Definition getattr (p : property) : M string :=
  s <- get scene ;;
  ret (match stored p s with
       | Some v => v
       | None => ""
       end).

(** [scene.p = value]. *)
Definition setattr (p : property) (value : string) : M unit :=
  candidates <- items p ;;
  if existsb (String.eqb value) (map identifier candidates)
  then modify (fun w => set_scene (store p (Some value) (scene w)) w)
  else raise TypeError ("enum " ++ repr value ++ " not found")%string.

(** [del scene[p]]. *)
Definition delitem (p : property) : M unit :=
  s <- get scene ;;
  match stored p s with
  | Some _ => modify (fun w => set_scene (store p None (scene w)) w)
  | None => raise KeyError "key not in subtype IDProperties"
  end.

Definition set_status_ping (text : string) : M unit :=
  modify (set_window_manager {| flamenco_status_ping := text |}).

End bpy.

(** ** [addon/flamenco/comms.py] *)

Module comms.

Definition info (line : string) : M unit :=
  modify (fun w => set_log (log w ++ [line])%list w).

(** [manager.ApiClient(configuration)]: a new object, whose calls reach
    the Manager at the configured host. *)
Definition new_ApiClient (cfg : Configuration) : M ApiClient :=
  fun w =>
    (Ok {| client_id := objects w; configuration := cfg;
           remote := network w (host cfg) |},
     set_objects (S (objects w)) w).

(** The late imports and [dependencies.preload_modules()] change nothing
    of this state. *)
Definition flamenco_api_client (manager_url : string) : M ApiClient :=
  cached <- get _flamenco_client ;;
  match cached with
  | Some client => ret client
  | None =>
      let configuration := {| host := rstrip "/" manager_url |} in
      client <- new_ApiClient configuration ;;
      modify (set_flamenco_client (Some client)) ;;
      info ("created API client for Manager at " ++ manager_url)%string ;;
      ret client
  end.

Definition discard_flamenco_data : M unit :=
  cached <- get _flamenco_client ;;
  match cached with
  | None => ret tt
  | Some client =>
      info "closing Flamenco client" ;;
      modify (fun w => set_closed (client_id client :: closed w) w) ;;
      modify (set_flamenco_client None)
  end.

Definition job_type_warning (old_job_type_name : string) : string :=
  "Job type " ++ repr old_job_type_name
    ++ " no longer available, choose another one".

Definition tag_warning (old_tag_name : string) : string :=
  "Tag " ++ repr old_tag_name ++ " no longer available, choose another one".

(** The block [ping_manager] has once for each selection:
    [if old: try: scene.p = old / except TypeError: ...]. The report and
    its level are the two locals that the handler assigns. *)
Definition restore (p : bpy.property) (old : string) (warning : string)
  (report : string * string) : M (string * string) :=
  if String.eqb old "" then ret report
  else
    try_except
      (bpy.setattr p old ;; ret report)
      (fun ex =>
         if isinstance ex TypeError then
           Some (bpy.delitem p ;; ret (warning, "WARNING"))
         else None).

Definition ping_manager (api_client : ApiClient) : M (string * string) :=
  bpy.set_status_ping "..." ;;
  old_job_type_name <- bpy.getattr bpy.flamenco_job_type_prop ;;
  old_tag_name <- bpy.getattr bpy.flamenco_worker_tag_prop ;;
  fetched <-
    try_except
      (info <- manager_info.fetch api_client ;; ret (inl info))
      (fun ex =>
         if isinstance ex FetchError then
           Some (let report := exn_str ex in
                 bpy.set_status_ping report ;;
                 ret (inr (report, "ERROR")))
         else None) ;;
  match fetched with
  | inr error_report => ret error_report
  | inl info =>
      manager_info.save info ;;
      let report :=
        (FlamencoVersion.name (ManagerInfo.flamenco_version info)
           ++ " version "
           ++ FlamencoVersion.version (ManagerInfo.flamenco_version info)
           ++ " found")%string in
      let report_level := "INFO" in
      job_types.refresh_scene_properties (ManagerInfo.job_types info) ;;
      r <- restore bpy.flamenco_job_type_prop old_job_type_name
             (job_type_warning old_job_type_name) (report, report_level) ;;
      r <- restore bpy.flamenco_worker_tag_prop old_tag_name
             (tag_warning old_tag_name) r ;;
      bpy.set_status_ping (fst r) ;;
      ret r
  end.

End comms.

(** ** Vocabulary of the statements *)

Module Refresh.

(** The exception the [try] block of [fetch] sees: that of the first of
    the four calls, in the order they are made, that raises. *)
Definition first_failure (m : Manager) (system : string) : option exn :=
  match get_version m with
  | Raise ex => Some ex
  | Ok _ =>
      match get_shared_storage m "users" system with
      | Raise ex => Some ex
      | Ok _ =>
          match get_job_types m with
          | Raise ex => Some ex
          | Ok _ =>
              match fetch_worker_tags m with
              | Raise ex => Some ex
              | Ok _ => None
              end
          end
      end
  end.

(** The snapshot the four calls make when all succeed. *)
Definition snapshot (m : Manager) (system : string) : option ManagerInfo.t :=
  match get_version m, get_shared_storage m "users" system,
        get_job_types m, fetch_worker_tags m with
  | Ok v, Ok s, Ok j, Ok t => Some (ManagerInfo.Build v s j t)
  | _, _, _, _ => None
  end.

(** The classes [fetch] turns into [FetchError]. *)
Definition transport_or_api_error (ex : exn) : bool :=
  isinstance ex ApiException || isinstance ex HTTPError.

Definition mem (x : string) (l : list string) : bool :=
  existsb (String.eqb x) l.

(** The identifiers a selection can take after a refresh with [info]. *)
Definition job_type_candidates (info : ManagerInfo.t) : list string :=
  map AvailableJobType.name
    (AvailableJobTypes.job_types (ManagerInfo.job_types info)).

Definition worker_tag_candidates (info : ManagerInfo.t) : list string :=
  "-" :: map WorkerTag.id (WorkerTagList.tags (ManagerInfo.worker_tags info)).

(** The old selection as [ping_manager] reads it. *)
Definition old_id (selection : option string) : string :=
  match selection with
  | Some v => v
  | None => ""
  end.

(** A selection that [ping_manager] clears: set, and no candidate. *)
Definition cleared (old : string) (candidates : list string) : bool :=
  negb (String.eqb old "") && negb (mem old candidates).

(** A selection that [ping_manager] keeps: set, and a candidate. *)
Definition kept (old : string) (candidates : list string) : bool :=
  negb (String.eqb old "") && mem old candidates.

(** The selection a refresh leaves. *)
Definition reconciled (selection : option string) (candidates : list string)
  : option string :=
  if cleared (old_id selection) candidates then None else selection.

Definition found_report (info : ManagerInfo.t) : string :=
  FlamencoVersion.name (ManagerInfo.flamenco_version info) ++ " version "
    ++ FlamencoVersion.version (ManagerInfo.flamenco_version info) ++ " found".

(** The items of the worker tag selection when [info] is cached. *)
Definition worker_tag_items (info : ManagerInfo.t) : list enum_item :=
  ("-", "All", "No specific tag assigned, any worker can handle this job")
    :: map worker_tags.item_of_tag
         (WorkerTagList.tags (ManagerInfo.worker_tags info)).

(** What a refresh whose fetch succeeded reports: the warning of the last
    selection it cleared, the worker tag being reconciled last; otherwise
    the version it found. *)
Definition refresh_report (info : ManagerInfo.t) (old_job_type old_tag : string)
  : string * string :=
  if cleared old_tag (worker_tag_candidates info)
  then (comms.tag_warning old_tag, "WARNING")
  else if cleared old_job_type (job_type_candidates info)
       then (comms.job_type_warning old_job_type, "WARNING")
       else (found_report info, "INFO").

(** The tree [_to_json] writes for [info]. *)
Definition document (info : ManagerInfo.t) : json :=
  JDict (map (fun f => (fst f, to_dict (snd f))) (ManagerInfo.fields info)).

(** A string [repr] writes between single quotes as it is. *)
Definition plain_char (c : ascii) : bool :=
  isprintable c && negb (Ascii.eqb c backslash)
  && negb (Ascii.eqb c squote_char).

Fixpoint plain (s : string) : bool :=
  match s with
  | EmptyString => true
  | String c s' => plain_char c && plain s'
  end.

(** A well-formed snapshot: the other attributes of each job type are the
    items of a [dict], none of them the name. *)
Definition valid_job_type (jt : AvailableJobType.t) : bool :=
  wf (JDict (AvailableJobType.other_attributes jt))
  && negb (mem "name" (map fst (AvailableJobType.other_attributes jt))).

Definition valid (info : ManagerInfo.t) : bool :=
  forallb valid_job_type
    (AvailableJobTypes.job_types (ManagerInfo.job_types info)).

End Refresh.
Export Refresh.

(** ** Sample values *)

Module Samples.

Definition version : FlamencoVersion.t :=
  FlamencoVersion.Build "Flamenco" "3.5".

Definition storage : SharedStorageLocation.t :=
  SharedStorageLocation.Build "/mnt/flamenco" "users" "linux".

Definition render : AvailableJobType.t :=
  AvailableJobType.Build "render"
    [("label", JStr "Render");
     ("settings", JList [JDict [("key", JStr "frames");
                                ("required", JBool true);
                                ("default", JNull)];
                         JDict [("key", JStr "chunk_size");
                                ("default", JInt 1)]]);
     ("etag", JStr "1f2e")].

Definition simulate : AvailableJobType.t :=
  AvailableJobType.Build "simulate" [("label", JStr "Simulate")].

Definition gpu : WorkerTag.t := WorkerTag.Build "gpu" "GPU" None.

Definition cpu : WorkerTag.t :=
  WorkerTag.Build "cpu-only" "CPU" (Some "Workers without a GPU").

Definition info : ManagerInfo.t :=
  ManagerInfo.Build version storage
    (AvailableJobTypes.Build [render; simulate])
    (WorkerTagList.Build [gpu]).

Definition older_info : ManagerInfo.t :=
  ManagerInfo.Build (FlamencoVersion.Build "Flamenco" "3.4") storage
    (AvailableJobTypes.Build [simulate])
    (WorkerTagList.Build [cpu]).

(** A Manager that answers all four calls. *)
Definition answering : Manager :=
  {| get_version := Ok version;
     get_shared_storage := fun _ _ => Ok storage;
     get_job_types := Ok (AvailableJobTypes.Build [render; simulate]);
     fetch_worker_tags := Ok (WorkerTagList.Build [gpu]) |}.

(** A Manager whose third call raises [ex]. *)
Definition failing (ex : exn) : Manager :=
  {| get_version := Ok version;
     get_shared_storage := fun _ _ => Ok storage;
     get_job_types := Raise ex;
     fetch_worker_tags := Ok (WorkerTagList.Build [gpu]) |}.

Definition client_of (m : Manager) : ApiClient :=
  {| client_id := 0;
     configuration := {| host := "http://localhost:8080" |};
     remote := m |}.

Definition max_retries : exn :=
  Exn MaxRetryError "HTTPConnectionPool(host='localhost', port=8080)".

Definition protocol_error : exn := Exn HTTPError "Connection broken".

Definition not_found : exn := Exn ApiException "(404) Reason: Not Found".

Definition validation_error : exn :=
  Exn OtherError "Invalid type for variable 'version'".

(** A process that has just started: nothing cached, no cache file, no
    client, no selection. *)
Definition fresh : World :=
  {| _cached_manager_info := None; cache_file := Missing;
     _flamenco_client := None; objects := 0; closed := [];
     _enum_items := []; _available_job_types := [];
     scene := {| flamenco_job_type := None; flamenco_worker_tag := None |};
     window_manager := {| flamenco_status_ping := "" |};
     stdout := []; log := [];
     resource_path_user := "/home/artist/.config/blender/4.2";
     platform_system := "Linux";
     network := fun _ => answering |}.

(** A process with [older_info] cached in memory and on disk, and both
    selections made. *)
Definition selected (job_type tag : string) : World :=
  set_scene {| flamenco_job_type := Some job_type;
               flamenco_worker_tag := Some tag |}
    (set_available_job_types [simulate]
       (set_cached_manager_info (Some older_info)
          (set_cache_file (Contents "{}") fresh))).

End Samples.


(** ** Vocabulary of the further properties *)

Module Further.

(** The item [_get_enum_items] returns when no snapshot can be had. *)
Definition tags_unknown : enum_item :=
  ("-", "-tags unknown-",
   "Refresh to load the available Worker tags from the Manager").

(** [s] is made of the character [ch] only. *)
Fixpoint only (ch : ascii) (s : string) : bool :=
  match s with
  | EmptyString => true
  | String c s' => Ascii.eqb c ch && only ch s'
  end.

(** [s.endswith(ch)]. *)
Fixpoint ends_with (ch : ascii) (s : string) : bool :=
  match s with
  | EmptyString => false
  | String c EmptyString => Ascii.eqb c ch
  | String _ s' => ends_with ch s'
  end.

(** The keys of the document on disk, in the order of the fields of the
    dataclass. *)
Definition field_names : list string :=
  ["flamenco_version"; "shared_storage"; "job_types"; "worker_tags"].

(** The characters a JSON value can begin with, for [json.loads]: those
    of an object, a list, a string, a number and the words [true],
    [false], [null], [NaN] and [Infinity]. *)
Definition begins_value (c : ascii) : bool :=
  Ascii.eqb c "{" || Ascii.eqb c "[" || Ascii.eqb c quote_char
  || Ascii.eqb c "-" || is_digit c || Ascii.eqb c "t" || Ascii.eqb c "f"
  || Ascii.eqb c "n" || Ascii.eqb c "N" || Ascii.eqb c "I".

(** A text in which [json.loads] finds no value to begin with: it is
    empty or blank, or its first character after the white space cannot
    begin a value. *)
Fixpoint expects_value (text : string) : bool :=
  match text with
  | EmptyString => true
  | String c rest =>
      if is_whitespace c then expects_value rest else negb (begins_value c)
  end.

(** A text that the scanner reads to its end and that holds no number
    literal. *)
Definition no_number_literal (text : string) : bool :=
  match scan LStart text with
  | Some ts =>
      forallb (fun t => match t with TInt _ => false | _ => true end) ts
  | None => false
  end.

End Further.
Export Further.

(** * Properties *)

Close Scope py_scope.

(** ** Running a computation *)

Ltac run :=
  cbv beta iota zeta delta [bind ret get modify call raise try_except] in *.

Ltac by_class ex :=
  destruct (isinstance ex ApiException); [reflexivity|];
  destruct (isinstance ex MaxRetryError); [reflexivity|];
  destruct (isinstance ex HTTPError); reflexivity.

(** ** Strings *)

Lemma prefix_app (s t : string) : String.prefix s (s ++ t) = true.
Proof.
  induction s as [|c s IH]; cbn.
  - destruct t; reflexivity.
  - destruct (ascii_dec c c) as [_|N]; [exact IH|contradiction].
Qed.

Lemma str_in_app (s pre post : string) : str_in s (pre ++ s ++ post) = true.
Proof.
  induction pre as [|c pre IH]; cbn [append].
  - destruct (s ++ post) eqn:E; cbn [str_in]; rewrite <- E, prefix_app;
      reflexivity.
  - cbn [str_in]. rewrite IH. apply orb_true_r.
Qed.

Lemma append_empty_r (s : string) : s ++ "" = s.
Proof. induction s as [|c s IH]; cbn; [|rewrite IH]; reflexivity. Qed.

Lemma append_assoc (a b c : string) : (a ++ b) ++ c = a ++ b ++ c.
Proof. induction a as [|x a IH]; cbn; [|rewrite IH]; reflexivity. Qed.

Lemma str_in_suffix (s pre : string) : str_in s (pre ++ s) = true.
Proof.
  rewrite <- (append_empty_r s) at 2. apply str_in_app.
Qed.

Lemma repr_char_plain (c : ascii) :
  plain_char c = true -> repr_char squote_char c = chr c.
Proof.
  destruct c as [[] [] [] [] [] [] [] []]; intros H;
    solve [reflexivity | discriminate H].
Qed.

Lemma repr_body_plain (s : string) :
  plain s = true -> repr_body squote_char s = s.
Proof.
  induction s as [|c s IH]; cbn [plain repr_body]; [reflexivity|].
  intros H. apply andb_prop in H. destruct H as [Hc Hs].
  rewrite (repr_char_plain _ Hc), (IH Hs). reflexivity.
Qed.

Lemma plain_no_single_quote (s : string) :
  plain s = true -> contains_char squote_char s = false.
Proof.
  induction s as [|c s IH]; cbn [plain contains_char]; [reflexivity|].
  intros H. apply andb_prop in H. destruct H as [Hc Hs].
  rewrite (IH Hs). unfold plain_char in Hc.
  destruct (Ascii.eqb c squote_char); [|reflexivity].
  rewrite andb_false_r in Hc. discriminate.
Qed.

(** [repr] of a plain string is the string between single quotes. *)
Lemma repr_plain (s : string) :
  plain s = true -> repr s = String squote_char (s ++ chr squote_char).
Proof.
  intros H. unfold repr. rewrite (plain_no_single_quote _ H). cbn [andb].
  rewrite (repr_body_plain _ H). reflexivity.
Qed.

(** ** The [json] module: what [dumps] writes, [loads] reads *)

Lemma with_tokens_nil r : with_tokens [] r = r.
Proof. destruct r; reflexivity. Qed.

Lemma with_tokens_app a b r :
  with_tokens a (with_tokens b r) = with_tokens (a ++ b) r.
Proof. destruct r; cbn; [rewrite app_assoc|]; reflexivity. Qed.

Lemma scan_step st c s ts st' :
  step st c = Some (ts, st') ->
  scan st (String c s) = with_tokens ts (scan st' s).
Proof. intros H. cbn [scan]. rewrite H. reflexivity. Qed.

Lemma scan_escape_char c acc r :
  scan (LStr acc) (escape_char c ++ r) = scan (LStr (acc ++ chr c)) r.
Proof.
  destruct c as [[] [] [] [] [] [] [] []];
    cbv - [scan append]; cbn; try reflexivity;
    unfold snoc, chr; destruct (scan _ _); reflexivity.
Qed.

Lemma scan_escape s : forall acc r,
  scan (LStr acc) (escape s ++ String quote_char r)
  = with_tokens [TString (acc ++ s)] (scan LStart r).
Proof.
  induction s as [|c s IH]; intros acc r; cbn [escape].
  - cbn [append]. rewrite append_empty_r. apply scan_step. reflexivity.
  - rewrite append_assoc, scan_escape_char, IH, append_assoc. reflexivity.
Qed.

Lemma scan_string s r :
  scan LStart (encode_basestring_ascii s ++ r)
  = with_tokens [TString s] (scan LStart r).
Proof.
  unfold encode_basestring_ascii. cbn [append].
  rewrite (scan_step LStart quote_char _ [] (LStr "")) by reflexivity.
  rewrite with_tokens_nil, append_assoc. cbn [chr append].
  apply scan_escape.
Qed.

Lemma scan_indent n r : scan LStart (indent n ++ r) = scan LStart r.
Proof.
  induction n as [|n IH]; cbn [indent append]; [reflexivity|].
  rewrite (scan_step LStart " " _ [] LStart) by reflexivity.
  rewrite (scan_step LStart " " _ [] LStart) by reflexivity.
  rewrite !with_tokens_nil. exact IH.
Qed.

Lemma scan_newline_indent n r :
  scan LStart (newline_indent n ++ r) = scan LStart r.
Proof.
  unfold newline_indent. cbn [append].
  rewrite (scan_step LStart newline _ [] LStart) by reflexivity.
  rewrite with_tokens_nil. apply scan_indent.
Qed.

Lemma scan_digits u : forall neg acc r,
  scan (LNum neg acc) (NilEmpty.string_of_uint u ++ r)
  = scan (LNum neg (acc ++ NilEmpty.string_of_uint u)) r.
Proof.
  induction u; intros neg acc r; cbn [NilEmpty.string_of_uint append];
    try (rewrite (scan_step (LNum neg acc) _ _ [] (LNum neg (snoc acc _)))
           by reflexivity;
         rewrite with_tokens_nil, IHu; unfold snoc; rewrite append_assoc;
         reflexivity).
  rewrite append_empty_r. reflexivity.
Qed.

Lemma scan_uint u r :
  u <> Decimal.Nil ->
  scan LStart (NilZero.string_of_uint u ++ r)
  = scan (LNum false (NilZero.string_of_uint u)) r.
Proof.
  intros H. destruct u; [contradiction| ..];
    cbn [NilZero.string_of_uint NilEmpty.string_of_uint append];
    (rewrite (scan_step LStart _ _ [] (LNum false (chr _))) by reflexivity;
     rewrite with_tokens_nil; apply scan_digits).
Qed.

Lemma to_uint_nonnil n : N.to_uint n <> Decimal.Nil.
Proof.
  destruct n; cbn; [discriminate|apply DecimalPos.Unsigned.to_uint_nonnil].
Qed.

Lemma number_token_to_uint neg n :
  number_token neg (NilZero.string_of_uint (N.to_uint n))
  = Some (TInt (if neg then - Z.of_N n else Z.of_N n)%Z).
Proof.
  unfold number_token.
  rewrite (NilZero.usu _ (to_uint_nonnil n)), DecimalN.Unsigned.of_to.
  rewrite String.eqb_refl. reflexivity.
Qed.

Lemma scan_number_end neg ds t r :
  number_token neg ds = Some t ->
  boundary r = true ->
  scan (LNum neg ds) r = with_tokens [t] (scan LStart r).
Proof.
  intros T B. destruct r as [|c r]; cbn [scan finish].
  - rewrite T. reflexivity.
  - cbn [boundary] in B. apply orb_prop in B.
    destruct B as [B|B]; apply Ascii.eqb_eq in B; subst c;
      cbn [step is_digit N_of_ascii]; cbn; rewrite T;
      destruct (scan LStart r); reflexivity.
Qed.

Lemma scan_int z r :
  boundary r = true ->
  scan LStart (encode_int z ++ r) = with_tokens [TInt z] (scan LStart r).
Proof.
  intros B. unfold encode_int.
  destruct (z <? 0)%Z eqn:S.
  - cbn [append].
    rewrite (scan_step LStart "-" _ [] (LNum true "")) by reflexivity.
    rewrite with_tokens_nil.
    pose proof (to_uint_nonnil (Z.abs_N z)) as NN.
    unfold NilZero.string_of_uint at 1.
    destruct (N.to_uint (Z.abs_N z)) eqn:E; [contradiction| ..];
      rewrite scan_digits; cbn [append];
      change (NilEmpty.string_of_uint ?u)
        with (NilZero.string_of_uint u);
      rewrite <- E;
      rewrite (scan_number_end _ _ _ _ (number_token_to_uint true _) B);
      do 3 f_equal; apply Z.ltb_lt in S; rewrite N2Z.inj_abs_N; lia.
  - cbn [append]. rewrite (scan_uint _ _ (to_uint_nonnil _)).
    rewrite (scan_number_end _ _ _ _ (number_token_to_uint false _) B).
    do 3 f_equal. apply Z.ltb_ge in S. rewrite N2Z.inj_abs_N; lia.
Qed.

Lemma scan_comma r :
  scan LStart (String "," r) = with_tokens [TComma] (scan LStart r).
Proof. apply scan_step. reflexivity. Qed.

(** [items] and the tokens of each, one list per item. *)
Lemma scan_join (level : nat) (items : list string)
  (toks : list (list token)) :
  Forall2
    (fun item tok =>
       forall r, boundary r = true ->
         scan LStart (item ++ r) = with_tokens tok (scan LStart r))
    items toks ->
  forall tail, boundary tail = true ->
    scan LStart (join ("," ++ newline_indent level) items ++ tail)
    = with_tokens (separated toks) (scan LStart tail).
Proof.
  assert (SEP : forall r, scan LStart (("," ++ newline_indent level) ++ r)
                          = with_tokens [TComma] (scan LStart r)).
  { intros r. rewrite append_assoc. cbn [append].
    rewrite scan_comma, scan_newline_indent. reflexivity. }
  assert (BSEP : forall r, boundary (("," ++ newline_indent level) ++ r) = true)
    by reflexivity.
  remember ("," ++ newline_indent level) as sep eqn:E. clear E.
  induction 1 as [|item tok items toks H F IH]; intros tail B.
  - cbn [join separated append]. rewrite with_tokens_nil. reflexivity.
  - destruct F as [|item' tok' items' toks' H' F'].
    + cbn [join separated]. apply H, B.
    + change (join sep (item :: item' :: items'))
        with (item ++ sep ++ join sep (item' :: items')).
      change (separated (tok :: tok' :: toks'))
        with (tok ++ TComma :: separated (tok' :: toks'))%list.
      rewrite append_assoc. rewrite H by (rewrite append_assoc; apply BSEP).
      rewrite append_assoc, SEP, (IH tail B), !with_tokens_app.
      rewrite <- app_assoc. reflexivity.
Qed.

Lemma scan_container (opening closing : ascii) (topen tclose : token)
  (level : nat) (items : list string) (toks : list (list token)) :
  step LStart opening = Some ([topen], LStart) ->
  step LStart closing = Some ([tclose], LStart) ->
  Forall2
    (fun item tok =>
       forall r, boundary r = true ->
         scan LStart (item ++ r) = with_tokens tok (scan LStart r))
    items toks ->
  forall r,
    scan LStart (container (chr opening) (chr closing) level items ++ r)
    = with_tokens (topen :: separated toks ++ [tclose]) (scan LStart r).
Proof.
  intros O C F r. unfold container.
  destruct F as [|item tok items toks H F].
  - cbn [chr append separated]. rewrite (scan_step _ _ _ _ _ O).
    rewrite (scan_step _ _ _ _ _ C). rewrite with_tokens_app. reflexivity.
  - rewrite !append_assoc. cbn [chr append].
    rewrite (scan_step _ _ _ _ _ O).
    change (String newline (indent (S level) ++ ?x))
      with (newline_indent (S level) ++ x).
    rewrite scan_newline_indent.
    rewrite (scan_join (S level) (item :: items) (tok :: toks))
      by (try reflexivity; constructor; assumption).
    change (String newline (indent level ++ ?x))
      with (newline_indent level ++ x).
    rewrite scan_newline_indent, (scan_step _ _ _ _ _ C).
    rewrite !with_tokens_app. reflexivity.
Qed.

Lemma scan_iterencode (v : json) : forall level r,
  boundary r = true ->
  scan LStart (iterencode level v ++ r)
  = with_tokens (tokens v) (scan LStart r).
Proof.
  induction v as [|b|z|s|l IH|d IH] using json_induction; intros level r B.
  - cbn [iterencode tokens append]. cbn. destruct (scan LStart r); reflexivity.
  - destruct b; cbn [iterencode tokens append]; cbn;
      destruct (scan LStart r); reflexivity.
  - apply scan_int, B.
  - apply scan_string.
  - cbn [iterencode tokens].
    apply (scan_container "[" "]" TLBracket TRBracket); try reflexivity.
    induction IH as [|x l Hx _ IHl]; cbn [map]; constructor; [|exact IHl].
    intros r' B'. apply Hx, B'.
  - cbn [iterencode tokens].
    apply (scan_container "{" "}" TLBrace TRBrace); try reflexivity.
    induction IH as [|[k x] d Hx _ IHd]; cbn [map]; constructor; [|exact IHd].
    intros r' B'. cbn [fst snd]. rewrite !append_assoc, scan_string.
    cbn [append]. rewrite (scan_step LStart ":" _ [TColon] LStart) by reflexivity.
    rewrite (scan_step LStart " " _ [] LStart) by reflexivity.
    rewrite with_tokens_nil, (Hx _ _ B'), !with_tokens_app. reflexivity.
Qed.

Lemma scan_dumps (v : json) : scan LStart (dumps v) = Some (tokens v).
Proof.
  unfold dumps. rewrite <- (append_empty_r (iterencode 0 v)).
  rewrite scan_iterencode by reflexivity. cbn. rewrite app_nil_r. reflexivity.
Qed.

(** ** Parsing the tokens of a value *)

Lemma dict_set_fresh {A} (k : string) (v : A) (d : list (string * A)) :
  existsb (String.eqb k) (map fst d) = false ->
  dict_set k v d = (d ++ [(k, v)])%list.
Proof.
  induction d as [|[k' v'] d IH]; cbn [dict_set map existsb fst app];
    [reflexivity|].
  intros H. apply orb_false_elim in H. destruct H as [H1 H2].
  rewrite String.eqb_sym, H1, (IH H2). reflexivity.
Qed.

Lemma existsb_app_false (k : string) (a b : list string) :
  existsb (String.eqb k) (a ++ b) = false ->
  existsb (String.eqb k) a = false /\ existsb (String.eqb k) b = false.
Proof. rewrite existsb_app. apply orb_false_elim. Qed.

Lemma distinct_app_cons (a : list string) (k : string) (b : list string) :
  distinct (a ++ k :: b) = true ->
  existsb (String.eqb k) a = false /\ distinct ((a ++ [k]) ++ b) = true.
Proof.
  intros H. split.
  - induction a as [|x a IH]; [reflexivity|].
    change (negb (existsb (String.eqb x) (a ++ k :: b))
            && distinct (a ++ k :: b) = true) in H.
    apply andb_prop in H. destruct H as [H1 H2].
    apply negb_true_iff in H1.
    destruct (existsb_app_false _ _ _ H1) as [_ Xb].
    cbn [existsb] in Xb. apply orb_false_elim in Xb. destruct Xb as [Xk _].
    cbn [existsb]. rewrite String.eqb_sym, Xk, (IH H2). reflexivity.
  - rewrite <- app_assoc. exact H.
Qed.

Lemma fold_dict_set_distinct (d acc : list (string * json)) :
  distinct (map fst (acc ++ d)) = true ->
  fold_left (fun d kv => dict_set (fst kv) (snd kv) d) d acc = (acc ++ d)%list.
Proof.
  revert acc. induction d as [|[k v] d IH]; intros acc H; cbn [fold_left].
  - rewrite app_nil_r. reflexivity.
  - cbn [fst snd]. rewrite map_app in H. cbn [map fst] in H.
    destruct (distinct_app_cons _ _ _ H) as [F D].
    rewrite (dict_set_fresh _ _ _ F), IH.
    + rewrite <- app_assoc. reflexivity.
    + rewrite !map_app. exact D.
Qed.

Lemma dict_of_pairs_distinct (d : list (string * json)) :
  distinct (map fst d) = true -> dict_of_pairs d = d.
Proof. intros H. apply (fold_dict_set_distinct d []). exact H. Qed.

(** The tokens of a value start with a token that opens a value. *)
Lemma tokens_start (v : json) :
  exists t ts, tokens v = t :: ts /\ t <> TRBracket /\ t <> TRBrace.
Proof.
  destruct v as [|[]| | | |]; cbn [tokens]; eexists; eexists;
    (split; [reflexivity|split; discriminate]).
Qed.

Lemma length_separated_cons (x : list token) (y : list token)
  (rest : list (list token)) :
  length (separated (x :: y :: rest))
  = (length x + 1 + length (separated (y :: rest)))%nat.
Proof.
  change (separated (x :: y :: rest))
    with (x ++ TComma :: separated (y :: rest))%list.
  rewrite length_app. cbn [length]. lia.
Qed.

Lemma parse_items_separated (l : list json) :
  Forall parses l -> forallb wf l = true -> l <> [] ->
  forall fuel rest,
    (length (separated (map tokens l)) + 1 < fuel)%nat ->
    parse_items fuel (separated (map tokens l) ++ TRBracket :: rest)
    = Some (l, rest).
Proof.
  induction 1 as [|x l Hx F IH]; intros W N fuel rest L; [contradiction|].
  cbn [forallb] in W. apply andb_prop in W. destruct W as [Wx Wl].
  destruct fuel as [|fuel]; [lia|]. cbn [parse_items].
  destruct l as [|y l].
  - cbn [map separated] in *. rewrite (Hx Wx) by lia. reflexivity.
  - cbn [map] in *. rewrite length_separated_cons in L.
    change (separated (tokens x :: tokens y :: map tokens l))
      with (tokens x ++ TComma :: separated (tokens y :: map tokens l))%list.
    rewrite <- app_assoc. rewrite (Hx Wx) by lia.
    rewrite <- app_comm_cons.
    rewrite IH; [reflexivity|exact Wl|discriminate|lia].
Qed.

Lemma parse_pairs_separated (d : list (string * json)) :
  Forall (fun kv => parses (snd kv)) d ->
  forallb (fun kv => wf (snd kv)) d = true -> d <> [] ->
  forall fuel rest,
    (length (separated
               (map (fun kv => TString (fst kv) :: TColon :: tokens (snd kv)) d))
     + 1 < fuel)%nat ->
    parse_pairs fuel
      (separated
         (map (fun kv => TString (fst kv) :: TColon :: tokens (snd kv)) d)
       ++ TRBrace :: rest)
    = Some (d, rest).
Proof.
  induction 1 as [|[k x] d Hx F IH]; intros W N fuel rest L; [contradiction|].
  cbn [forallb snd] in W. apply andb_prop in W. destruct W as [Wx Wd].
  destruct fuel as [|fuel]; [lia|]. cbn [parse_pairs].
  destruct d as [|[k' y] d].
  - cbn [map separated fst snd length] in *. rewrite <- !app_comm_cons.
    rewrite (Hx Wx) by lia. reflexivity.
  - cbn [map fst snd] in *. rewrite length_separated_cons in L.
    cbn [length] in L.
    change (separated ((TString k :: TColon :: tokens x) :: ?p :: ?q))
      with ((TString k :: TColon :: tokens x)
              ++ TComma :: separated (p :: q))%list.
    rewrite <- app_assoc. rewrite <- !app_comm_cons. rewrite (Hx Wx) by lia.
    rewrite IH; [reflexivity|exact Wd|discriminate|lia].
Qed.

Lemma parse_tokens (v : json) : parses v.
Proof.
  induction v as [|b|z|s|l IH|d IH] using json_induction;
    intros W fuel rest L; (destruct fuel as [|fuel]; [lia|]).
  - reflexivity.
  - destruct b; reflexivity.
  - reflexivity.
  - reflexivity.
  - cbn [tokens wf] in *. destruct l as [|x l]; [reflexivity|].
    rewrite <- app_comm_cons, <- app_assoc. cbn [app length] in *.
    rewrite length_app in L. cbn [length] in L.
    destruct (tokens_start x) as [t [ts [E [N1 N2]]]].
    assert (S : exists t' ts', (separated (map tokens (x :: l))
                               ++ TRBracket :: rest)%list = t' :: ts'
                               /\ t' <> TRBracket).
    { cbn [map]. destruct l; cbn [separated map]; rewrite E; cbn [app];
        eauto. }
    destruct S as [t' [ts' [E' N']]].
    pose proof (parse_items_separated (x :: l) IH W ltac:(discriminate)
                  fuel rest ltac:(lia)) as PI.
    rewrite E' in *. cbn [parse_value].
    destruct t'; try contradiction; rewrite PI; reflexivity.
  - cbn [tokens wf] in *. apply andb_prop in W. destruct W as [D W].
    destruct d as [|[k x] d]; [reflexivity|].
    rewrite <- app_comm_cons, <- app_assoc. cbn [app length] in *.
    rewrite length_app in L. cbn [length] in L.
    pose proof (parse_pairs_separated ((k, x) :: d) IH W ltac:(discriminate)
                  fuel rest ltac:(lia)) as PP.
    assert (S : exists ts',
               (separated
                  (map (fun kv => TString (fst kv) :: TColon :: tokens (snd kv))
                     ((k, x) :: d)) ++ TRBrace :: rest)%list
               = TString k :: ts').
    { cbn [map fst snd]. destruct d; cbn [separated map app]; eauto. }
    destruct S as [ts' E']. rewrite E' in *. cbn [parse_value].
    rewrite PP, (dict_of_pairs_distinct _ D). reflexivity.
Qed.

(** What [dumps] writes, [loads] reads back. *)
Lemma loads_dumps (v : json) : wf v = true -> loads (dumps v) = Some v.
Proof.
  intros W. unfold loads. rewrite scan_dumps.
  rewrite <- (app_nil_r (tokens v)) at 2.
  rewrite (parse_tokens v W) by lia. reflexivity.
Qed.

(** ** The fuel of the parser *)

Lemma parse_enough (fuel : nat) :
  enough parse_value fuel /\ enough parse_items fuel
  /\ enough parse_pairs fuel.
Proof.
  induction fuel as [|fuel [IHv [IHi IHp]]].
  - repeat split; intros ts a rest H; discriminate H.
  - repeat split; intros ts a rest H.
    + cbn [parse_value] in H.
      destruct ts as [|t ts]; [discriminate|].
      destruct t; try discriminate.
      * (* object *)
        destruct ts as [|t ts].
        { destruct (parse_pairs fuel []) as [[pairs r']|] eqn:P;
            [|discriminate].
          injection H as <- <-. destruct (IHp _ _ _ P) as [used [E F]].
          exists (TLBrace :: used). split; [rewrite E; reflexivity|].
          intros [|fuel'] L; [cbn in L; lia|]. cbn [parse_value].
          rewrite (F fuel') by (cbn in L; lia). reflexivity. }
        destruct t;
          try (destruct (parse_pairs fuel (_ :: ts)) as [[pairs r']|] eqn:P;
               [|discriminate];
               injection H as <- <-; destruct (IHp _ _ _ P) as [used [E F]];
               exists (TLBrace :: used); split; [rewrite E; reflexivity|];
               intros [|fuel'] L; [cbn in L; lia|]; cbn [parse_value];
               rewrite (F fuel') by (cbn in L; lia); reflexivity).
        injection H as <- <-. exists [TLBrace; TRBrace].
        split; [reflexivity|]. intros [|fuel'] L; [cbn in L; lia|reflexivity].
      * (* array *)
        destruct ts as [|t ts].
        { destruct (parse_items fuel []) as [[items r']|] eqn:P;
            [|discriminate].
          injection H as <- <-. destruct (IHi _ _ _ P) as [used [E F]].
          exists (TLBracket :: used). split; [rewrite E; reflexivity|].
          intros [|fuel'] L; [cbn in L; lia|]. cbn [parse_value].
          rewrite (F fuel') by (cbn in L; lia). reflexivity. }
        destruct t;
          try (destruct (parse_items fuel (_ :: ts)) as [[items r']|] eqn:P;
               [|discriminate];
               injection H as <- <-; destruct (IHi _ _ _ P) as [used [E F]];
               exists (TLBracket :: used); split; [rewrite E; reflexivity|];
               intros [|fuel'] L; [cbn in L; lia|]; cbn [parse_value];
               rewrite (F fuel') by (cbn in L; lia); reflexivity).
        injection H as <- <-. exists [TLBracket; TRBracket].
        split; [reflexivity|]. intros [|fuel'] L; [cbn in L; lia|reflexivity].
      * injection H as <- <-. exists [TString s]. split; [reflexivity|].
        intros [|fuel'] L; [cbn in L; lia|reflexivity].
      * injection H as <- <-. exists [TInt z]. split; [reflexivity|].
        intros [|fuel'] L; [cbn in L; lia|reflexivity].
      * injection H as <- <-. exists [TTrue]. split; [reflexivity|].
        intros [|fuel'] L; [cbn in L; lia|reflexivity].
      * injection H as <- <-. exists [TFalse]. split; [reflexivity|].
        intros [|fuel'] L; [cbn in L; lia|reflexivity].
      * injection H as <- <-. exists [TNull]. split; [reflexivity|].
        intros [|fuel'] L; [cbn in L; lia|reflexivity].
    + cbn [parse_items] in H.
      destruct (parse_value fuel ts) as [[v r]|] eqn:P; [|discriminate].
      destruct (IHv _ _ _ P) as [used [E F]].
      destruct r as [|t r]; [discriminate|]. destruct t; try discriminate.
      * injection H as <- <-. exists (used ++ [TRBracket])%list.
        split; [rewrite <- app_assoc; exact E|].
        intros [|fuel'] L; [lia|]. rewrite length_app in L. cbn in L.
        cbn [parse_items]. rewrite (F fuel') by lia. reflexivity.
      * destruct (parse_items fuel r) as [[l r']|] eqn:Q; [|discriminate].
        injection H as <- <-. destruct (IHi _ _ _ Q) as [used' [E' F']].
        exists (used ++ TComma :: used')%list.
        split; [rewrite <- app_assoc, <- app_comm_cons, <- E'; exact E|].
        intros [|fuel'] L; [lia|]. rewrite length_app in L. cbn in L.
        cbn [parse_items]. rewrite (F fuel'), (F' fuel') by lia. reflexivity.
    + cbn [parse_pairs] in H.
      destruct ts as [|t ts]; [discriminate|]. destruct t; try discriminate.
      destruct ts as [|t ts]; [discriminate|]. destruct t; try discriminate.
      destruct (parse_value fuel ts) as [[v r]|] eqn:P; [|discriminate].
      destruct (IHv _ _ _ P) as [used [E F]].
      destruct r as [|t r]; [discriminate|]. destruct t; try discriminate.
      * injection H as <- <-.
        exists (TString s :: TColon :: used ++ [TRBrace])%list.
        split; [rewrite E; cbn [app]; rewrite <- app_assoc; reflexivity|].
        intros [|fuel'] L; [lia|]. cbn [length] in L.
        rewrite length_app in L. cbn in L.
        cbn [parse_pairs]. rewrite (F fuel') by lia. reflexivity.
      * destruct (parse_pairs fuel r) as [[l r']|] eqn:Q; [|discriminate].
        injection H as <- <-. destruct (IHp _ _ _ Q) as [used' [E' F']].
        exists (TString s :: TColon :: used ++ TComma :: used')%list.
        split; [rewrite E, E'; cbn [app]; rewrite <- app_assoc; reflexivity|].
        intros [|fuel'] L; [lia|]. cbn [length] in L.
        rewrite length_app in L. cbn in L.
        cbn [parse_pairs]. rewrite (F fuel'), (F' fuel') by lia. reflexivity.
Qed.

(** The fuel [loads] gives the parser never limits it: a document that
    parses with some fuel parses with the fuel [loads] gives. *)
Lemma loads_fuel (s : string) (ts : list token) (fuel : nat) (v : json) :
  scan LStart s = Some ts ->
  parse_value fuel ts = Some (v, []) ->
  loads s = Some v.
Proof.
  intros S P. unfold loads. rewrite S.
  destruct (parse_enough fuel) as [E _].
  destruct (E _ _ _ P) as [used [U F]]. rewrite app_nil_r in U. subst used.
  rewrite (F (Datatypes.S (length ts))) by lia. reflexivity.
Qed.

(** ** The codec *)

Lemma filter_other_attributes (d : list (string * json)) :
  mem "name" (map fst d) = false ->
  filter (fun kv => negb (String.eqb (fst kv) "name")) d = d.
Proof.
  induction d as [|[k v] d IH]; cbn [filter map fst mem existsb];
    [reflexivity|].
  intros H. apply orb_false_elim in H. destruct H as [H1 H2].
  rewrite String.eqb_sym, H1. cbn [negb]. f_equal. apply IH, H2.
Qed.

Lemma job_type_round_trip (path : list string) (jt : AvailableJobType.t) :
  valid_job_type jt = true ->
  job_type_from_dict path (job_type_to_dict jt) = Ok jt.
Proof.
  destruct jt as [n other]. unfold valid_job_type.
  cbn [AvailableJobType.name AvailableJobType.other_attributes].
  intros V. apply andb_prop in V. destruct V as [_ V].
  apply negb_true_iff in V.
  unfold job_type_from_dict, job_type_to_dict, as_dict, required_str.
  cbn [AvailableJobType.name AvailableJobType.other_attributes rbind lookup
       filter fst].
  cbn. rewrite (filter_other_attributes _ V). reflexivity.
Qed.

Lemma worker_tag_round_trip (path : list string) (tag : WorkerTag.t) :
  worker_tag_from_dict path (worker_tag_to_dict tag) = Ok tag.
Proof. destruct tag as [i n [d|]]; reflexivity. Qed.

Lemma rmap_round_trip {A B} (f : A -> B) (g : B -> result A) (valid : A -> bool)
  (l : list A) :
  (forall x, valid x = true -> g (f x) = Ok x) ->
  forallb valid l = true ->
  rmap g (map f l) = Ok l.
Proof.
  intros H. induction l as [|x l IH]; cbn [map rmap forallb]; [reflexivity|].
  intros V. apply andb_prop in V. destruct V as [Vx Vl].
  rewrite (H x Vx). cbn [rbind]. rewrite (IH Vl). reflexivity.
Qed.

(** Each model is read back from the mapping it is converted to. *)
Lemma model_round_trip (name : string) (api_type : api_type)
  (m : OpenApiModel) :
  match m, api_type with
  | MFlamencoVersion _, TFlamencoVersion
  | MSharedStorageLocation _, TSharedStorageLocation
  | MWorkerTagList _, TWorkerTagList => True
  | MAvailableJobTypes v, TAvailableJobTypes =>
      forallb valid_job_type (AvailableJobTypes.job_types v) = true
  | _, _ => False
  end ->
  validate_and_convert_types (to_dict m) api_type [name] = Ok m.
Proof.
  destruct m as [[n v]|[l a p]|[jts]|[tags]]; destruct api_type;
    try contradiction; intros V; try reflexivity.
  - unfold validate_and_convert_types, to_dict, as_dict, required_list.
    cbn [rbind lookup AvailableJobTypes.job_types]. cbn [String.eqb].
    cbn. rewrite (rmap_round_trip job_type_to_dict _ valid_job_type);
      [reflexivity|apply job_type_round_trip|exact V].
  - unfold validate_and_convert_types, to_dict, as_dict, required_list.
    cbn. rewrite (rmap_round_trip worker_tag_to_dict _ (fun _ => true));
      [reflexivity|intros; apply worker_tag_round_trip|].
    induction tags; [reflexivity|assumption].
Qed.

Lemma wf_job_type_to_dict (jt : AvailableJobType.t) :
  valid_job_type jt = true -> wf (job_type_to_dict jt) = true.
Proof.
  destruct jt as [n other]. unfold valid_job_type, job_type_to_dict, mem.
  cbn [AvailableJobType.name AvailableJobType.other_attributes wf map fst snd
       distinct forallb].
  intros V. apply andb_prop in V. destruct V as [W N].
  apply andb_prop in W. destruct W as [D F]. rewrite N, D, F. reflexivity.
Qed.

Lemma wf_worker_tag_to_dict (tag : WorkerTag.t) :
  wf (worker_tag_to_dict tag) = true.
Proof. destruct tag as [i n [d|]]; reflexivity. Qed.

Lemma forallb_map {A B} (f : A -> B) (p : B -> bool) (l : list A) :
  forallb p (map f l) = forallb (fun x => p (f x)) l.
Proof. induction l as [|x l IH]; cbn; [|rewrite IH]; reflexivity. Qed.

Lemma wf_document (info : ManagerInfo.t) :
  valid info = true -> wf (document info) = true.
Proof.
  destruct info as [[n v] [l a p] [jts] [tags]]. unfold valid, document.
  cbn [ManagerInfo.job_types AvailableJobTypes.job_types ManagerInfo.fields
       ManagerInfo.flamenco_version ManagerInfo.shared_storage
       ManagerInfo.worker_tags WorkerTagList.tags map fst snd to_dict].
  intros V. cbn [wf map fst snd distinct existsb forallb].
  rewrite !forallb_map.
  assert (J : forallb (fun x => wf (job_type_to_dict x)) jts = true).
  { induction jts as [|jt jts IH]; [reflexivity|].
    cbn [forallb] in *. apply andb_prop in V. destruct V as [V1 V2].
    rewrite (wf_job_type_to_dict _ V1), (IH V2). reflexivity. }
  assert (T : forallb (fun x => wf (worker_tag_to_dict x)) tags = true).
  { induction tags as [|t tags IH]; [reflexivity|].
    cbn [forallb]. rewrite wf_worker_tag_to_dict, IH. reflexivity. }
  rewrite J, T. reflexivity.
Qed.

Lemma from_json_document (info : ManagerInfo.t) :
  valid info = true ->
  manager_info._from_json (dumps (document info)) = Ok info.
Proof.
  intros V. unfold manager_info._from_json, manager_info.json_loads.
  rewrite (loads_dumps _ (wf_document _ V)). cbn [rbind].
  destruct info as [fv ss jts tags]. unfold valid in V.
  cbn [ManagerInfo.job_types] in V.
  unfold ManagerInfo.type_info, document, ManagerInfo.fields.
  cbn [rmap map fst snd ManagerInfo.flamenco_version
       ManagerInfo.shared_storage ManagerInfo.job_types
       ManagerInfo.worker_tags].
  unfold manager_info.getitem.
  cbn [lookup String.eqb Ascii.eqb Bool.eqb rbind].
  rewrite (model_round_trip "flamenco_version" TFlamencoVersion
             (MFlamencoVersion fv) I).
  rewrite (model_round_trip "shared_storage" TSharedStorageLocation
             (MSharedStorageLocation ss) I).
  rewrite (model_round_trip "job_types" TAvailableJobTypes
             (MAvailableJobTypes jts) V).
  rewrite (model_round_trip "worker_tags" TWorkerTagList
             (MWorkerTagList tags) I).
  reflexivity.
Qed.

(** C1. For a valid snapshot [_to_json] does not fail, and [_from_json]
    makes the snapshot again from the text it returns. *)
Theorem from_json_to_json (info : ManagerInfo.t) :
  valid info = true ->
  exists text,
    manager_info._to_json info = Ok text
    /\ manager_info._from_json text = Ok info.
Proof.
  intros V. exists (dumps (document info)). split.
  - reflexivity.
  - apply from_json_document, V.
Qed.

Lemma from_json_to_json_witness :
  valid Samples.info = true
  /\ exists text,
       manager_info._to_json Samples.info = Ok text
       /\ manager_info._from_json text = Ok Samples.info.
Proof.
  split; [reflexivity|]. apply (from_json_to_json Samples.info). reflexivity.
Defined.

(** ** [fetch] *)

Section Fetch.
Variable api_client : ApiClient.
Variable w : World.

(** When no call raises there is a snapshot, and conversely. *)
Lemma snapshot_first_failure :
  (exists info,
      snapshot (remote api_client) (lower (platform_system w)) = Some info)
  <-> first_failure (remote api_client) (lower (platform_system w)) = None.
Proof.
  unfold snapshot, first_failure.
  destruct (get_version _); [|split; [intros [? ?]|]; discriminate].
  destruct (get_shared_storage _ _ _); [|split; [intros [? ?]|]; discriminate].
  destruct (get_job_types _); [|split; [intros [? ?]|]; discriminate].
  destruct (fetch_worker_tags _); [|split; [intros [? ?]|]; discriminate].
  split; eauto.
Qed.

(** What [fetch] does, by the outcome of the four calls. *)
Lemma fetch_succeeds (info : ManagerInfo.t) :
  snapshot (remote api_client) (lower (platform_system w)) = Some info ->
  manager_info.fetch api_client w
  = (Ok info, set_cached_manager_info (Some info) w).
Proof.
  unfold snapshot, manager_info.fetch. run.
  destruct (get_version _); [|discriminate].
  destruct (get_shared_storage _ _ _); [|discriminate].
  destruct (get_job_types _); [|discriminate].
  destruct (fetch_worker_tags _); [|discriminate].
  intros [= <-]. reflexivity.
Qed.

Lemma fetch_fails (ex : exn) :
  first_failure (remote api_client) (lower (platform_system w)) = Some ex ->
  manager_info.fetch api_client w =
    (Raise
       (if isinstance ex ApiException
        then Exn FetchError ("Manager cannot be reached: " ++ exn_str ex)
        else if isinstance ex MaxRetryError
             then Exn FetchError "Manager cannot be reached"
             else if isinstance ex HTTPError
                  then Exn FetchError
                         ("Manager cannot be reached: " ++ exn_str ex)
                  else ex), w).
Proof.
  unfold first_failure, manager_info.fetch. run.
  destruct (get_version _) as [?|e1]; [|intros [= ->]; by_class ex].
  destruct (get_shared_storage _ _ _) as [?|e2]; [|intros [= ->]; by_class ex].
  destruct (get_job_types _) as [?|e3]; [|intros [= ->]; by_class ex].
  destruct (fetch_worker_tags _) as [?|e4]; [discriminate|].
  intros [= ->]; by_class ex.
Qed.

(** A call that raises makes the [try] block fail, and the exception it
    fails with is that of a call. *)
Lemma raising_call_fails (ex : exn) :
  get_version (remote api_client) = Raise ex
  \/ get_shared_storage (remote api_client) "users"
       (lower (platform_system w)) = Raise ex
  \/ get_job_types (remote api_client) = Raise ex
  \/ fetch_worker_tags (remote api_client) = Raise ex ->
  exists first,
    first_failure (remote api_client) (lower (platform_system w)) = Some first.
Proof.
  unfold first_failure.
  destruct (get_version _); [|eauto].
  destruct (get_shared_storage _ _ _); [|eauto].
  destruct (get_job_types _); [|eauto].
  destruct (fetch_worker_tags _); [|eauto].
  intros [H|[H|[H|H]]]; discriminate.
Qed.

Lemma first_failure_is_a_call (first : exn) :
  first_failure (remote api_client) (lower (platform_system w)) = Some first ->
  get_version (remote api_client) = Raise first
  \/ get_shared_storage (remote api_client) "users"
       (lower (platform_system w)) = Raise first
  \/ get_job_types (remote api_client) = Raise first
  \/ fetch_worker_tags (remote api_client) = Raise first.
Proof.
  unfold first_failure.
  destruct (get_version _); [|intros [= ->]; auto].
  destruct (get_shared_storage _ _ _); [|intros [= ->]; auto].
  destruct (get_job_types _); [|intros [= ->]; auto].
  destruct (fetch_worker_tags _); [discriminate|intros [= ->]; auto].
Qed.

End Fetch.

Lemma transport_or_api_error_FetchError (ex : exn) :
  transport_or_api_error ex = true ->
  exn_cls
    (if isinstance ex ApiException
     then Exn FetchError ("Manager cannot be reached: " ++ exn_str ex)
     else if isinstance ex MaxRetryError
          then Exn FetchError "Manager cannot be reached"
          else if isinstance ex HTTPError
               then Exn FetchError ("Manager cannot be reached: " ++ exn_str ex)
               else ex) = FetchError.
Proof.
  unfold transport_or_api_error.
  destruct (isinstance ex ApiException); [reflexivity|].
  destruct (isinstance ex MaxRetryError); [reflexivity|].
  destruct (isinstance ex HTTPError); [reflexivity|discriminate].
Qed.

(** When the exception the [try] block sees is of none of the classes
    [fetch] has an [except] clause for, it is the exception [fetch]
    raises. *)
Lemma other_exception_unchanged (ex : exn) :
  transport_or_api_error ex = false ->
  (if isinstance ex ApiException
   then Exn FetchError ("Manager cannot be reached: " ++ exn_str ex)
   else if isinstance ex MaxRetryError
        then Exn FetchError "Manager cannot be reached"
        else if isinstance ex HTTPError
             then Exn FetchError ("Manager cannot be reached: " ++ exn_str ex)
             else ex) = ex.
Proof.
  unfold transport_or_api_error. intros T.
  apply orb_false_iff in T as [A H]. rewrite A, H.
  destruct (isinstance ex MaxRetryError) eqn:X; [|reflexivity].
  destruct ex as [[] ?]; discriminate.
Qed.

(** C2, amended. [fetch] returns a snapshot only if all four remote calls
    succeed, and it is the snapshot they make. If a call raises, [fetch]
    raises, returns no snapshot and leaves the world as it was: the cached
    snapshot and the cache file are those of before the call. What it
    raises follows the first call that raised: a [FetchError] when that
    call raised an [ApiException] or an [HTTPError] (a [MaxRetryError] is
    one), and the exception of that call itself, unchanged, when it is of
    any other class. So the exception is a [FetchError] when every call
    that raises does so with an [ApiException] or an [HTTPError], and the
    exception of one of the calls when none does. *)
Theorem fetch_all_or_nothing (api_client : ApiClient) (w : World) :
  let m := remote api_client in
  let system := lower (platform_system w) in
  (forall info w',
      manager_info.fetch api_client w = (Ok info, w') ->
      get_version m = Ok (ManagerInfo.flamenco_version info)
      /\ get_shared_storage m "users" system
         = Ok (ManagerInfo.shared_storage info)
      /\ get_job_types m = Ok (ManagerInfo.job_types info)
      /\ fetch_worker_tags m = Ok (ManagerInfo.worker_tags info))
  /\ (forall ex,
         get_version m = Raise ex
         \/ get_shared_storage m "users" system = Raise ex
         \/ get_job_types m = Raise ex
         \/ fetch_worker_tags m = Raise ex ->
         exists first raised,
           first_failure m system = Some first
           /\ manager_info.fetch api_client w = (Raise raised, w)
           /\ _cached_manager_info (snd (manager_info.fetch api_client w))
              = _cached_manager_info w
           /\ cache_file (snd (manager_info.fetch api_client w)) = cache_file w
           /\ (transport_or_api_error first = true ->
               exn_cls raised = FetchError)
           /\ (transport_or_api_error first = false -> raised = first)
           /\ ((forall ex',
                   get_version m = Raise ex'
                   \/ get_shared_storage m "users" system = Raise ex'
                   \/ get_job_types m = Raise ex'
                   \/ fetch_worker_tags m = Raise ex' ->
                   transport_or_api_error ex' = true) ->
               exn_cls raised = FetchError)
           /\ ((forall ex',
                   get_version m = Raise ex'
                   \/ get_shared_storage m "users" system = Raise ex'
                   \/ get_job_types m = Raise ex'
                   \/ fetch_worker_tags m = Raise ex' ->
                   transport_or_api_error ex' = false) ->
               get_version m = Raise raised
               \/ get_shared_storage m "users" system = Raise raised
               \/ get_job_types m = Raise raised
               \/ fetch_worker_tags m = Raise raised)).
Proof.
  intros m system. split.
  - intros info w' H.
    destruct (first_failure m system) as [ex|] eqn:F.
    + rewrite (fetch_fails _ _ _ F) in H. discriminate.
    + apply snapshot_first_failure in F. destruct F as [info' S].
      rewrite (fetch_succeeds _ _ _ S) in H. injection H as <- _.
      revert S. unfold snapshot. fold m. fold system.
      destruct (get_version m); [|discriminate].
      destruct (get_shared_storage m "users" system); [|discriminate].
      destruct (get_job_types m); [|discriminate].
      destruct (fetch_worker_tags m); [|discriminate].
      intros [= <-]. auto.
  - intros ex H.
    destruct (raising_call_fails _ _ _ H) as [first F].
    pose proof (first_failure_is_a_call _ _ _ F) as call.
    rewrite (fetch_fails _ _ _ F). exists first. eexists.
    split; [exact F|]. split; [reflexivity|].
    split; [reflexivity|]. split; [reflexivity|].
    split; [apply transport_or_api_error_FetchError|].
    split; [apply other_exception_unchanged|]. split.
    + intros T. apply transport_or_api_error_FetchError.
      apply T. exact call.
    + intros T. rewrite (other_exception_unchanged _ (T _ call)).
      exact call.
Qed.

(** The Manager of [Samples.failing] raises at its third call; [fetch]
    turns a [MaxRetryError] into a [FetchError] and leaves the cache. *)
Lemma fetch_all_or_nothing_witness :
  exists raised,
    manager_info.fetch (Samples.client_of (Samples.failing Samples.max_retries))
      (Samples.selected "render" "gpu")
    = (Raise raised, Samples.selected "render" "gpu")
    /\ exn_cls raised = FetchError.
Proof.
  destruct (fetch_all_or_nothing
              (Samples.client_of (Samples.failing Samples.max_retries))
              (Samples.selected "render" "gpu")) as [_ H].
  destruct (H Samples.max_retries)
    as [first [raised [_ [E [_ [_ [_ [_ [T _]]]]]]]]].
  - right. right. left. reflexivity.
  - exists raised. split; [exact E|]. apply T.
    intros ex' [C|[C|[C|C]]]; try discriminate C.
    injection C as <-. reflexivity.
Defined.

(** C2 as stated fails: a call that raises an exception of a class that
    [fetch] has no [except] clause for makes [fetch] raise that very
    exception, which is no [FetchError]. *)
Lemma fetch_lets_other_exceptions_through :
  get_job_types (remote (Samples.client_of
                           (Samples.failing Samples.validation_error)))
  = Raise Samples.validation_error
  /\ manager_info.fetch
       (Samples.client_of (Samples.failing Samples.validation_error))
       Samples.fresh
     = (Raise Samples.validation_error, Samples.fresh)
  /\ exn_cls Samples.validation_error <> FetchError.
Proof.
  split; [reflexivity|]. split; [reflexivity|]. discriminate.
Qed.

(** C4, amended. On success [fetch] itself replaces the cached snapshot
    by the one it returns and changes nothing else: the cache file is left
    for the caller to write. *)
Theorem fetch_caches_what_it_returns (api_client : ApiClient) (w w' : World)
  (info : ManagerInfo.t) :
  manager_info.fetch api_client w = (Ok info, w') ->
  w' = set_cached_manager_info (Some info) w
  /\ _cached_manager_info w' = Some info
  /\ cache_file w' = cache_file w.
Proof.
  intros H.
  destruct (first_failure (remote api_client) (lower (platform_system w)))
    as [ex|] eqn:F.
  - rewrite (fetch_fails _ _ _ F) in H. discriminate.
  - apply snapshot_first_failure in F. destruct F as [info' S].
    rewrite (fetch_succeeds _ _ _ S) in H. injection H as <- <-.
    repeat split.
Qed.

Lemma fetch_caches_what_it_returns_witness :
  _cached_manager_info
    (snd (manager_info.fetch (Samples.client_of Samples.answering)
            (Samples.selected "render" "gpu")))
  = Some Samples.info
  /\ cache_file
       (snd (manager_info.fetch (Samples.client_of Samples.answering)
               (Samples.selected "render" "gpu")))
     = Contents "{}".
Proof.
  destruct (fetch_caches_what_it_returns
              (Samples.client_of Samples.answering)
              (Samples.selected "render" "gpu")
              (snd (manager_info.fetch (Samples.client_of Samples.answering)
                      (Samples.selected "render" "gpu")))
              Samples.info eq_refl) as [_ [C F]].
  split; [exact C|exact F].
Defined.

(** C4 as stated fails: with nothing cached before, the snapshot is cached
    once [fetch] has returned it. *)
Lemma fetch_writes_the_cached_snapshot :
  _cached_manager_info Samples.fresh = None
  /\ manager_info.fetch (Samples.client_of Samples.answering) Samples.fresh
     = (Ok Samples.info,
        set_cached_manager_info (Some Samples.info) Samples.fresh)
  /\ _cached_manager_info
       (snd (manager_info.fetch (Samples.client_of Samples.answering)
               Samples.fresh))
     <> _cached_manager_info Samples.fresh.
Proof.
  split; [reflexivity|]. split; [reflexivity|]. discriminate.
Qed.

(** ** The cache *)

(** What [load] does, by the state of the cache file. *)
Lemma load_unfold (w : World) :
  manager_info.load w =
    (match cache_file w with
     | Missing =>
         Raise (Exn FileNotFoundError
                  ("flamenco-manager-info.json not found in "
                     ++ (resource_path_user w ++ "/config")))
     | Unreadable why =>
         Raise (Exn LoadError
                  ("Could not read "
                     ++ ((resource_path_user w ++ "/config") ++ "/"
                           ++ "flamenco-manager-info.json")
                     ++ ": " ++ why))
     | Contents text =>
         match manager_info._from_json text with
         | Ok info => Ok info
         | Raise ex =>
             if isinstance ex JSONDecodeError
             then Raise (Exn LoadError
                           ("Could not decode JSON in "
                              ++ ((resource_path_user w ++ "/config") ++ "/"
                                    ++ "flamenco-manager-info.json")))
             else Raise ex
         end
     end, w).
Proof.
  unfold manager_info.load, manager_info._json_filepath,
    manager_info.file_exists, manager_info.read_text, manager_info.path_str.
  run. cbn [manager_info.name manager_info.parent].
  destruct (cache_file w) as [|why|text] eqn:E;
    cbv beta iota zeta delta [negb]; rewrite ?E; try reflexivity.
  destruct (manager_info._from_json text) as [?|ex]; [reflexivity|].
  destruct (isinstance ex JSONDecodeError); reflexivity.
Qed.

Lemma load_leaves_the_world (w : World) :
  snd (manager_info.load w) = w.
Proof. rewrite load_unfold. reflexivity. Qed.

Lemma load_ignores_the_cached_snapshot (v : option ManagerInfo.t) (w : World) :
  fst (manager_info.load (set_cached_manager_info v w))
  = fst (manager_info.load w).
Proof. rewrite !load_unfold. reflexivity. Qed.

Lemma load_into_cache_unfold (w : World) :
  manager_info.load_into_cache w =
    match fst (manager_info.load w) with
    | Ok info => (Ok (Some info), set_cached_manager_info (Some info) w)
    | Raise ex =>
        if isinstance ex FileNotFoundError
        then (Ok None, set_cached_manager_info None w)
        else if isinstance ex LoadError
             then (Ok None,
                   set_stdout
                     (stdout w ++
                      ["Could not load Flamenco Manager info from disk: "
                         ++ exn_str ex])
                     (set_cached_manager_info None w))
             else (Raise ex, set_cached_manager_info None w)
    end.
Proof.
  unfold manager_info.load_into_cache, manager_info.print. run.
  rewrite <- (load_ignores_the_cached_snapshot None w).
  pose proof (load_leaves_the_world (set_cached_manager_info None w)) as L.
  destruct (manager_info.load (set_cached_manager_info None w)) as [r w1].
  cbn [fst snd] in *. subst w1.
  destruct r as [info|ex]; [reflexivity|].
  destruct (isinstance ex FileNotFoundError); [reflexivity|].
  destruct (isinstance ex LoadError); reflexivity.
Qed.

(** C9. [load_into_cache] first sets the cached snapshot to [None],
    whatever was cached: it does the same from any cached snapshot. When
    the load from disk fails the cached snapshot is absent afterwards, also
    when one was cached before; for a missing file and for a [LoadError]
    the call returns [None]. *)
Theorem load_into_cache_forgets_on_failure (w : World) (ex : exn) :
  fst (manager_info.load w) = Raise ex ->
  (forall prior,
      manager_info.load_into_cache (set_cached_manager_info prior w)
      = manager_info.load_into_cache (set_cached_manager_info None w))
  /\ _cached_manager_info (snd (manager_info.load_into_cache w)) = None
  /\ (isinstance ex FileNotFoundError = true \/ isinstance ex LoadError = true ->
      fst (manager_info.load_into_cache w) = Ok None).
Proof.
  intros H. split; [|split].
  - intros prior. rewrite !load_into_cache_unfold.
    rewrite !load_ignores_the_cached_snapshot. reflexivity.
  - rewrite load_into_cache_unfold, H.
    destruct (isinstance ex FileNotFoundError); [reflexivity|].
    destruct (isinstance ex LoadError); reflexivity.
  - rewrite load_into_cache_unfold, H. intros [E|E].
    + rewrite E. reflexivity.
    + rewrite E. destruct (isinstance ex FileNotFoundError); reflexivity.
Qed.

(** With a snapshot cached and the cache file missing, [load_into_cache]
    returns [None] and nothing is cached any more. *)
Lemma load_into_cache_forgets_on_failure_witness :
  _cached_manager_info
    (set_cached_manager_info (Some Samples.info) Samples.fresh)
  = Some Samples.info
  /\ _cached_manager_info
       (snd (manager_info.load_into_cache
               (set_cached_manager_info (Some Samples.info) Samples.fresh)))
     = None
  /\ fst (manager_info.load_into_cache
            (set_cached_manager_info (Some Samples.info) Samples.fresh))
     = Ok None.
Proof.
  destruct (load_into_cache_forgets_on_failure
              (set_cached_manager_info (Some Samples.info) Samples.fresh)
              (Exn FileNotFoundError
                 "flamenco-manager-info.json not found in /home/artist/.config/blender/4.2/config")
              eq_refl) as [_ [C R]].
  split; [reflexivity|]. split; [exact C|]. apply R. left. reflexivity.
Defined.

(** C5. A cache file that holds the empty JSON object lacks all four keys;
    [load] raises the [KeyError] of the first lookup, not a [LoadError]. *)
Theorem load_missing_key_raises_KeyError (w : World) :
  loads "{}" = Some (JDict [])
  /\ manager_info.load (set_cache_file (Contents "{}") w)
     = (Raise (Exn KeyError "'flamenco_version'"),
        set_cache_file (Contents "{}") w).
Proof. split; reflexivity. Qed.

(** C6. The same file makes [load_into_cache] and [load_cached] raise that
    [KeyError]: the failure of a cache file that does not fit the schema
    is not absorbed. *)
Theorem load_into_cache_lets_KeyError_through (w : World) :
  manager_info.load_into_cache (set_cache_file (Contents "{}") w)
  = (Raise (Exn KeyError "'flamenco_version'"),
     set_cached_manager_info None (set_cache_file (Contents "{}") w))
  /\ manager_info.load_cached
       (set_cached_manager_info None (set_cache_file (Contents "{}") w))
     = (Raise (Exn KeyError "'flamenco_version'"),
        set_cached_manager_info None (set_cache_file (Contents "{}") w)).
Proof. split; reflexivity. Qed.

(** [validate_and_convert_types] raises nothing but [SchemaError]. *)
Lemma rmap_raises {A B} (f : A -> result B) (c : exn_class) (l : list A) :
  (forall x ex, f x = Raise ex -> exn_cls ex = c) ->
  forall ex, rmap f l = Raise ex -> exn_cls ex = c.
Proof.
  intros H. induction l as [|x l IH]; cbn [rmap]; [discriminate|].
  intros ex. destruct (f x) as [y|e] eqn:E; cbn [rbind].
  - destruct (rmap f l) as [ys|e]; cbn [rbind]; [discriminate|].
    intros [= <-]. apply IH. reflexivity.
  - intros [= <-]. apply (H _ _ E).
Qed.

Ltac schema_cases :=
  repeat match goal with
    | |- context [match ?x with _ => _ end] => destruct x; cbn [rbind]
    | |- Raise _ = Raise _ -> _ => intros [= <-]; reflexivity
    | |- Ok _ = Raise _ -> _ => discriminate
    end.

Lemma validate_raises_SchemaError (item : json) (ty : api_type)
  (path : list string) (ex : exn) :
  validate_and_convert_types item ty path = Raise ex ->
  exn_cls ex = SchemaError.
Proof.
  unfold validate_and_convert_types, as_dict.
  destruct item; cbn [rbind]; try (intros [= <-]; reflexivity).
  destruct ty; unfold required_str, required_list, schema_error.
  - schema_cases.
  - schema_cases.
  - destruct (lookup "job_types" d) as [[]|]; cbn [rbind];
      try (intros [= <-]; reflexivity).
    destruct (rmap _ l) as [jts|e] eqn:R; cbn [rbind]; [discriminate|].
    intros [= <-]. revert R. apply rmap_raises.
    intros x e'. unfold job_type_from_dict, as_dict, required_str, schema_error.
    destruct x; cbn [rbind]; try (intros [= <-]; reflexivity).
    schema_cases.
  - destruct (lookup "tags" d) as [[]|]; cbn [rbind];
      try (intros [= <-]; reflexivity).
    destruct (rmap _ l) as [jts|e] eqn:R; cbn [rbind]; [discriminate|].
    intros [= <-]. revert R. apply rmap_raises.
    intros x e'. unfold worker_tag_from_dict, as_dict, required_str,
      optional_str, schema_error.
    destruct x; cbn [rbind]; try (intros [= <-]; reflexivity).
    schema_cases.
Qed.

(** The entries of [type_info] are read in order: the first whose key is
    missing raises [KeyError], unless an earlier one fails the schema. *)
Lemma from_json_entries_missing_key (json_dict : list (string * json))
  (name : string) (entries : list (string * api_type)) :
  In name (map fst entries) ->
  lookup name json_dict = None ->
  exists ex,
    rmap (fun entry : string * api_type =>
            let (name, api_type) := entry in
            rbind (manager_info.getitem (JDict json_dict) name) (fun item =>
            rbind (validate_and_convert_types item api_type [name])
              (fun api_model => Ok (name, api_model))))
         entries = Raise ex
    /\ (exn_cls ex = KeyError \/ exn_cls ex = SchemaError).
Proof.
  intros I L. induction entries as [|[n ty] entries IH]; [contradiction|].
  cbn [rmap].
  change (manager_info.getitem (JDict json_dict) n)
    with (match lookup n json_dict with
          | Some v => Ok v
          | None => Raise (Exn KeyError (repr n))
          end).
  destruct (lookup n json_dict) as [item|] eqn:E; cbn [rbind].
  - destruct (validate_and_convert_types item ty [n]) as [m|ex] eqn:V;
      cbn [rbind].
    + destruct I as [I|I].
      * cbn [fst] in I. subst n. rewrite L in E. discriminate.
      * destruct (IH I) as [ex [R C]]. rewrite R. cbn [rbind]. eauto.
    + exists ex. split; [reflexivity|]. right.
      apply (validate_raises_SchemaError _ _ _ _ V).
  - eexists. split; [reflexivity|]. left. reflexivity.
Qed.

(** A JSON object that lacks one of the four keys makes [load] raise a
    [KeyError] or, when an earlier field fails the schema, a
    [SchemaError]: never a [LoadError]. *)
Lemma load_missing_key_is_no_LoadError (w : World) (text name : string)
  (json_dict : list (string * json)) :
  loads text = Some (JDict json_dict) ->
  In name (map fst ManagerInfo.type_info) ->
  lookup name json_dict = None ->
  exists ex,
    manager_info.load (set_cache_file (Contents text) w)
    = (Raise ex, set_cache_file (Contents text) w)
    /\ (exn_cls ex = KeyError \/ exn_cls ex = SchemaError).
Proof.
  intros P I L.
  destruct (from_json_entries_missing_key json_dict name _ I L)
    as [ex [R C]].
  exists ex. split; [|exact C].
  assert (F : manager_info._from_json text = Raise ex).
  { unfold manager_info._from_json, manager_info.json_loads.
    rewrite P. cbn [rbind]. rewrite R. reflexivity. }
  rewrite load_unfold. cbn [cache_file set_cache_file]. rewrite F.
  destruct C as [C|C]; unfold isinstance; rewrite C; reflexivity.
Qed.

(** Decoding is all or nothing: [_from_json] returns a snapshot only when
    the text is a JSON document in which each of the four keys is present
    with a value that fits its schema. *)
Lemma from_json_all_or_nothing (text : string) (info : ManagerInfo.t) :
  manager_info._from_json text = Ok info ->
  exists json_dict,
    loads text = Some json_dict
    /\ forall name api_type,
         In (name, api_type) ManagerInfo.type_info ->
         exists item api_model,
           manager_info.getitem json_dict name = Ok item
           /\ validate_and_convert_types item api_type [name] = Ok api_model.
Proof.
  unfold manager_info._from_json, manager_info.json_loads.
  destruct (loads text) as [json_dict|]; cbn [rbind]; [|discriminate].
  intros H. exists json_dict. split; [reflexivity|].
  unfold ManagerInfo.type_info in *. cbn [rmap] in H.
  destruct (manager_info.getitem json_dict "flamenco_version") as [i1|] eqn:G1;
    cbn [rbind] in H; [|discriminate].
  destruct (validate_and_convert_types i1 _ _) as [m1|] eqn:V1;
    cbn [rbind] in H; [|discriminate].
  destruct (manager_info.getitem json_dict "shared_storage") as [i2|] eqn:G2;
    cbn [rbind] in H; [|discriminate].
  destruct (validate_and_convert_types i2 _ _) as [m2|] eqn:V2;
    cbn [rbind] in H; [|discriminate].
  destruct (manager_info.getitem json_dict "job_types") as [i3|] eqn:G3;
    cbn [rbind] in H; [|discriminate].
  destruct (validate_and_convert_types i3 _ _) as [m3|] eqn:V3;
    cbn [rbind] in H; [|discriminate].
  destruct (manager_info.getitem json_dict "worker_tags") as [i4|] eqn:G4;
    cbn [rbind] in H; [|discriminate].
  destruct (validate_and_convert_types i4 _ _) as [m4|] eqn:V4;
    cbn [rbind] in H; [|discriminate].
  intros name api_type [E|[E|[E|[E|[]]]]]; injection E as <- <-; eauto.
Qed.


(** ** The API client *)

Lemma flamenco_api_client_cached (url : string) (w : World) (c : ApiClient) :
  _flamenco_client w = Some c ->
  comms.flamenco_api_client url w = (Ok c, w).
Proof.
  intros H. unfold comms.flamenco_api_client. run. rewrite H. reflexivity.
Qed.

Lemma flamenco_api_client_caches (url : string) (w : World) :
  exists c w',
    comms.flamenco_api_client url w = (Ok c, w')
    /\ _flamenco_client w' = Some c
    /\ (_flamenco_client w = None ->
        c = {| client_id := objects w;
               configuration := {| host := rstrip "/" url |};
               remote := network w (rstrip "/" url) |}).
Proof.
  unfold comms.flamenco_api_client, comms.new_ApiClient, comms.info. run.
  destruct (_flamenco_client w) as [c|] eqn:E.
  - exists c, w. repeat split; [exact E|discriminate].
  - eexists. eexists. split; [reflexivity|]. split; reflexivity.
Qed.

(** C10, amended. Two calls in a row, with no [discard_flamenco_data] in
    between: the second returns the client object the first returned and
    changes nothing, whatever its argument. When no client was stored
    before the first call, that call made the client, and it is
    configured for the first URL; when one was stored, both calls return
    the stored client and change nothing, whatever the two URLs. *)
Theorem flamenco_api_client_memoizes (url1 url2 : string) (w : World) :
  exists c w',
    comms.flamenco_api_client url1 w = (Ok c, w')
    /\ comms.flamenco_api_client url2 w' = (Ok c, w')
    /\ (_flamenco_client w = None ->
        host (configuration c) = rstrip "/" url1 /\ client_id c = objects w)
    /\ (forall stored,
          _flamenco_client w = Some stored -> c = stored /\ w' = w).
Proof.
  destruct (flamenco_api_client_caches url1 w) as [c [w' [E [C N]]]].
  exists c, w'. split; [exact E|]. split; [|split].
  - apply flamenco_api_client_cached. exact C.
  - intros H. rewrite (N H). split; reflexivity.
  - intros stored H.
    rewrite (flamenco_api_client_cached url1 w stored H) in E.
    injection E as <- <-. split; reflexivity.
Qed.

Lemma flamenco_api_client_memoizes_witness :
  exists c w',
    comms.flamenco_api_client "http://flamenco.local:8080/" Samples.fresh
    = (Ok c, w')
    /\ comms.flamenco_api_client "http://elsewhere:9000" w' = (Ok c, w')
    /\ host (configuration c) = "http://flamenco.local:8080".
Proof.
  destruct (flamenco_api_client_memoizes "http://flamenco.local:8080/"
              "http://elsewhere:9000" Samples.fresh)
    as [c [w' [E [E' [H _]]]]].
  exists c, w'. split; [exact E|]. split; [exact E'|].
  destruct (H eq_refl) as [Hh _]. exact Hh.
Defined.

(** C10 as stated fails: with a client stored, made for another URL, two
    calls in a row return that client, which is not configured for the
    URL of the first of them. *)
Lemma stored_client_is_for_another_url :
  exists c,
    comms.flamenco_api_client "http://flamenco.local:8080/"
      (set_flamenco_client (Some (Samples.client_of Samples.answering))
         Samples.fresh)
    = (Ok c,
       set_flamenco_client (Some (Samples.client_of Samples.answering))
         Samples.fresh)
    /\ comms.flamenco_api_client "http://elsewhere:9000"
         (set_flamenco_client (Some (Samples.client_of Samples.answering))
            Samples.fresh)
       = (Ok c,
          set_flamenco_client (Some (Samples.client_of Samples.answering))
            Samples.fresh)
    /\ host (configuration c) = "http://localhost:8080"
    /\ host (configuration c) <> rstrip "/" "http://flamenco.local:8080/".
Proof.
  exists (Samples.client_of Samples.answering).
  split; [reflexivity|]. split; [reflexivity|]. split; [reflexivity|].
  discriminate.
Qed.

(** After [discard_flamenco_data] the next call makes a new client, for
    the URL it is given. *)
Lemma flamenco_api_client_after_discard (url : string) (w : World) :
  exists c w',
    comms.flamenco_api_client url (snd (comms.discard_flamenco_data w))
    = (Ok c, w')
    /\ host (configuration c) = rstrip "/" url
    /\ client_id c = objects w.
Proof.
  unfold comms.discard_flamenco_data, comms.flamenco_api_client,
    comms.new_ApiClient, comms.info. run.
  destruct (_flamenco_client w) as [c0|] eqn:E; cbn [snd].
  - cbn [_flamenco_client set_flamenco_client]. eexists. eexists.
    split; [reflexivity|]. split; reflexivity.
  - rewrite E. eexists. eexists. split; [reflexivity|]. split; reflexivity.
Qed.
(** ** [ping_manager] *)

Lemma to_json_document (info : ManagerInfo.t) :
  manager_info._to_json info = Ok (dumps (document info)).
Proof. reflexivity. Qed.

Lemma for_each_items (tags : list WorkerTag.t) : forall w,
  for_each
    (fun tag =>
       modify (fun w =>
                 set_enum_items
                   (_enum_items w ++ [worker_tags.item_of_tag tag])%list w))
    tags w
  = (Ok tt,
     set_enum_items (_enum_items w ++ map worker_tags.item_of_tag tags) w).
Proof.
  induction tags as [|tag rest IH]; intros w; cbn [for_each map].
  - run. rewrite app_nil_r. destruct w; reflexivity.
  - run. rewrite IH. cbn [_enum_items set_enum_items].
    rewrite <- app_assoc. reflexivity.
Qed.

(** With a snapshot cached, the items of the worker tag selection are
    those of its tags, after the item that stands for no tag. *)
Lemma get_enum_items_cached (w : World) (info : ManagerInfo.t) :
  _cached_manager_info w = Some info ->
  worker_tags._get_enum_items w
  = (Ok (worker_tag_items info), set_enum_items (worker_tag_items info) w).
Proof.
  intros C. unfold worker_tags._get_enum_items, manager_info.load_cached.
  run. rewrite C. run. rewrite for_each_items. reflexivity.
Qed.

Lemma identifiers_worker_tag_items (info : ManagerInfo.t) :
  map bpy.identifier (worker_tag_items info) = worker_tag_candidates info.
Proof.
  unfold worker_tag_items, worker_tag_candidates. cbn [map]. f_equal.
  rewrite map_map. reflexivity.
Qed.

Lemma setattr_worker_tag (w : World) (info : ManagerInfo.t) (v : string) :
  _cached_manager_info w = Some info ->
  bpy.setattr bpy.flamenco_worker_tag_prop v w =
    if mem v (worker_tag_candidates info)
    then (Ok tt,
          set_scene (bpy.store bpy.flamenco_worker_tag_prop (Some v) (scene w))
            (set_enum_items (worker_tag_items info) w))
    else (Raise (Exn TypeError ("enum " ++ repr v ++ " not found")),
          set_enum_items (worker_tag_items info) w).
Proof.
  intros C. unfold bpy.setattr, bpy.items. run.
  rewrite (get_enum_items_cached _ _ C). rewrite identifiers_worker_tag_items.
  unfold mem. destruct (existsb _ _); reflexivity.
Qed.

Lemma setattr_job_type (w : World) (v : string) :
  bpy.setattr bpy.flamenco_job_type_prop v w =
    if mem v (map AvailableJobType.name (_available_job_types w))
    then (Ok tt,
          set_scene (bpy.store bpy.flamenco_job_type_prop (Some v) (scene w)) w)
    else (Raise (Exn TypeError ("enum " ++ repr v ++ " not found")), w).
Proof.
  unfold bpy.setattr, bpy.items, job_types._get_job_types_enum_items. run.
  rewrite map_map. cbn [bpy.identifier fst].
  unfold mem. destruct (existsb _ _); reflexivity.
Qed.

Lemma old_id_stored (sel : option string) :
  String.eqb (old_id sel) "" = false -> sel = Some (old_id sel).
Proof. destruct sel; [reflexivity|discriminate]. Qed.

Lemma restore_job_type (w : World) (report : string * string) :
  let sel := flamenco_job_type (scene w) in
  let candidates := map AvailableJobType.name (_available_job_types w) in
  comms.restore bpy.flamenco_job_type_prop (old_id sel)
    (comms.job_type_warning (old_id sel)) report w
  = (Ok (if cleared (old_id sel) candidates
         then (comms.job_type_warning (old_id sel), "WARNING") else report),
     set_scene {| flamenco_job_type := reconciled sel candidates;
                  flamenco_worker_tag := flamenco_worker_tag (scene w) |} w).
Proof.
  intros sel candidates. unfold comms.restore, cleared, reconciled, cleared.
  destruct (String.eqb (old_id sel) "") eqn:E; cbn [negb andb].
  - run. subst sel. destruct w as [? ? ? ? ? ? ? [? ?] ? ? ? ? ? ?]; reflexivity.
  - run. rewrite setattr_job_type. fold candidates.
    pose proof (old_id_stored _ E) as S. unfold sel in S.
    destruct (mem (old_id sel) candidates); cbn [negb].
    + unfold bpy.store, sel. rewrite <- S. reflexivity.
    + cbn [isinstance exn_cls issubclass exn_class_eqb orb].
      unfold bpy.delitem. run. cbn [bpy.stored]. rewrite S.
      reflexivity.
Qed.

Lemma restore_worker_tag (w : World) (info : ManagerInfo.t)
  (report : string * string) :
  _cached_manager_info w = Some info ->
  let sel := flamenco_worker_tag (scene w) in
  let candidates := worker_tag_candidates info in
  exists w',
    comms.restore bpy.flamenco_worker_tag_prop (old_id sel)
      (comms.tag_warning (old_id sel)) report w
    = (Ok (if cleared (old_id sel) candidates
           then (comms.tag_warning (old_id sel), "WARNING") else report), w')
    /\ scene w' = {| flamenco_job_type := flamenco_job_type (scene w);
                     flamenco_worker_tag := reconciled sel candidates |}
    /\ set_enum_items (_enum_items w) w' = set_scene (scene w') w.
Proof.
  intros C sel candidates. unfold comms.restore, cleared, reconciled, cleared.
  destruct (String.eqb (old_id sel) "") eqn:E; cbn [negb andb].
  - run. exists w. split; [reflexivity|]. subst sel.
    destruct w as [? ? ? ? ? ? ? [? ?] ? ? ? ? ? ?]; split; reflexivity.
  - run. rewrite (setattr_worker_tag _ _ _ C). fold candidates.
    pose proof (old_id_stored _ E) as S. unfold sel in S.
    destruct (mem (old_id sel) candidates); cbn [negb].
    + eexists. split; [reflexivity|]. unfold bpy.store, sel.
      cbn [scene set_scene set_enum_items]. rewrite <- S.
      split; reflexivity.
    + cbn [isinstance exn_cls issubclass exn_class_eqb orb].
      unfold bpy.delitem. run. cbn [bpy.stored scene set_enum_items]. rewrite S.
      eexists. split; [reflexivity|]. split; reflexivity.
Qed.

(** A refresh whose fetch succeeds: the report, the two selections, the
    cached snapshot, the cache file and the status it leaves. *)
Lemma ping_manager_fetched (api_client : ApiClient) (w : World)
  (info : ManagerInfo.t) :
  snapshot (remote api_client) (lower (platform_system w)) = Some info ->
  exists w',
    comms.ping_manager api_client w
    = (Ok (refresh_report info (old_id (flamenco_job_type (scene w)))
             (old_id (flamenco_worker_tag (scene w)))), w')
    /\ scene w'
       = {| flamenco_job_type :=
              reconciled (flamenco_job_type (scene w))
                (job_type_candidates info);
            flamenco_worker_tag :=
              reconciled (flamenco_worker_tag (scene w))
                (worker_tag_candidates info) |}
    /\ _cached_manager_info w' = Some info
    /\ cache_file w' = Contents (dumps (document info))
    /\ flamenco_status_ping (window_manager w')
       = fst (refresh_report info (old_id (flamenco_job_type (scene w)))
                (old_id (flamenco_worker_tag (scene w)))).
Proof.
  intros S. unfold comms.ping_manager, bpy.set_status_ping, bpy.getattr.
  run. cbn [scene set_window_manager bpy.stored].
  change (match flamenco_job_type (scene w) with Some v => v | None => "" end)
    with (old_id (flamenco_job_type (scene w))).
  change (match flamenco_worker_tag (scene w) with Some v => v | None => "" end)
    with (old_id (flamenco_worker_tag (scene w))).
  rewrite (fetch_succeeds api_client _ info) by exact S.
  unfold manager_info.save, manager_info._json_filepath, manager_info.mkdir,
    manager_info.write_text, job_types.refresh_scene_properties. run.
  rewrite to_json_document. run.
  match goal with
  | |- context [comms.restore bpy.flamenco_job_type_prop _ _ ?r ?w0] =>
      pose proof (restore_job_type w0 r) as RJ
  end.
  cbn [scene set_available_job_types set_cache_file set_cached_manager_info
       set_window_manager _available_job_types] in RJ.
  cbv zeta in RJ. rewrite RJ. clear RJ.
  match goal with
  | |- context [comms.restore bpy.flamenco_worker_tag_prop _ _ ?r ?w0] =>
      destruct (restore_worker_tag w0 info r eq_refl) as [w' [RT [SC FR]]]
  end.
  cbn [scene set_scene flamenco_worker_tag flamenco_job_type] in RT, SC.
  change (if cleared (old_id (flamenco_worker_tag (scene w)))
               (worker_tag_candidates info)
          then (comms.tag_warning (old_id (flamenco_worker_tag (scene w))),
                "WARNING")
          else _)
    with (refresh_report info (old_id (flamenco_job_type (scene w)))
            (old_id (flamenco_worker_tag (scene w)))) in RT.
  rewrite RT. eexists. split; [reflexivity|].
  cbn [scene set_window_manager _cached_manager_info cache_file window_manager
       flamenco_status_ping].
  split; [exact SC|].
  apply (f_equal _cached_manager_info) in FR as FC.
  apply (f_equal cache_file) in FR as FF.
  cbn in FC, FF.
  split; [exact FC|]. split; [exact FF|reflexivity].
Qed.

(** A refresh whose fetch fails with a [FetchError]: the text of the error
    is the report and the status; nothing else changes. *)
Lemma ping_manager_fetch_error (api_client : ApiClient) (w : World)
  (msg : string) :
  manager_info.fetch api_client
    (set_window_manager {| flamenco_status_ping := "..." |} w)
  = (Raise (Exn FetchError msg),
     set_window_manager {| flamenco_status_ping := "..." |} w) ->
  comms.ping_manager api_client w
  = (Ok (msg, "ERROR"), set_window_manager {| flamenco_status_ping := msg |} w).
Proof.
  intros F. unfold comms.ping_manager, bpy.set_status_ping, bpy.getattr.
  run. rewrite F. reflexivity.
Qed.

Lemma MaxRetryError_is_no_ApiException (ex : exn) :
  isinstance ex MaxRetryError = true -> isinstance ex ApiException = false.
Proof. destruct ex as [[] msg]; intros H; solve [reflexivity|discriminate H]. Qed.

(** C7. When the call that fails raises a [MaxRetryError], [fetch] raises
    a [FetchError] whose text is exactly "Manager cannot be reached";
    [ping_manager] returns that text with level ERROR, and but for the
    status text it leaves the world as it was: no selection is
    reconciled. When the call fails with another [HTTPError] or with an
    [ApiException], the text of the [FetchError] ends with that of the
    failure. *)
Theorem unreachable_manager_report (api_client : ApiClient) (w : World)
  (ex : exn) :
  first_failure (remote api_client) (lower (platform_system w)) = Some ex ->
  (isinstance ex MaxRetryError = true ->
   manager_info.fetch api_client w
   = (Raise (Exn FetchError "Manager cannot be reached"), w)
   /\ comms.ping_manager api_client w
      = (Ok ("Manager cannot be reached", "ERROR"),
         set_window_manager
           {| flamenco_status_ping := "Manager cannot be reached" |} w)
   /\ scene (snd (comms.ping_manager api_client w)) = scene w)
  /\ (isinstance ex MaxRetryError = false ->
      transport_or_api_error ex = true ->
      manager_info.fetch api_client w
      = (Raise (Exn FetchError ("Manager cannot be reached: " ++ exn_str ex)),
         w)
      /\ str_in (exn_str ex) ("Manager cannot be reached: " ++ exn_str ex)
         = true).
Proof.
  intros F. split.
  - intros R. pose proof (MaxRetryError_is_no_ApiException _ R) as A.
    assert (E : forall w0, platform_system w0 = platform_system w ->
                manager_info.fetch api_client w0
                = (Raise (Exn FetchError "Manager cannot be reached"), w0)).
    { intros w0 P. rewrite (fetch_fails api_client w0 ex).
      - rewrite A, R. reflexivity.
      - rewrite P. exact F. }
    split; [apply E; reflexivity|].
    rewrite (ping_manager_fetch_error api_client w "Manager cannot be reached").
    + split; reflexivity.
    + apply E. reflexivity.
  - intros R T. rewrite (fetch_fails _ _ _ F), R. split.
    + unfold transport_or_api_error in T.
      destruct (isinstance ex ApiException); [reflexivity|].
      cbn [orb] in T. rewrite T. reflexivity.
    + apply str_in_suffix.
Qed.

Lemma unreachable_manager_report_witness :
  comms.ping_manager (Samples.client_of (Samples.failing Samples.max_retries))
    (Samples.selected "paint" "cpu-only")
  = (Ok ("Manager cannot be reached", "ERROR"),
     set_window_manager
       {| flamenco_status_ping := "Manager cannot be reached" |}
       (Samples.selected "paint" "cpu-only"))
  /\ manager_info.fetch
       (Samples.client_of (Samples.failing Samples.protocol_error))
       Samples.fresh
     = (Raise (Exn FetchError "Manager cannot be reached: Connection broken"),
        Samples.fresh).
Proof.
  split.
  - destruct (unreachable_manager_report
                (Samples.client_of (Samples.failing Samples.max_retries))
                (Samples.selected "paint" "cpu-only") Samples.max_retries
                eq_refl) as [H _].
    destruct (H eq_refl) as [_ [P _]]. exact P.
  - destruct (unreachable_manager_report
                (Samples.client_of (Samples.failing Samples.protocol_error))
                Samples.fresh Samples.protocol_error eq_refl) as [_ H].
    destruct (H eq_refl eq_refl) as [P _]. exact P.
Defined.

Lemma cleared_spec (old : string) (candidates : list string) :
  old <> "" -> mem old candidates = false -> cleared old candidates = true.
Proof.
  intros N M. unfold cleared. rewrite M.
  destruct (String.eqb_spec old ""); [contradiction|reflexivity].
Qed.

Lemma warnings_differ (old_job_type old_tag : string) :
  comms.tag_warning old_tag <> comms.job_type_warning old_job_type.
Proof. unfold comms.tag_warning, comms.job_type_warning. discriminate. Qed.

(** C8. When the fetch succeeds and neither the old job type nor the old
    worker tag is a candidate any more, [ping_manager] returns the warning
    about the tag, with level WARNING; it is not the warning about the job
    type. Both selections are cleared. *)
Theorem both_cleared_reports_the_tag (api_client : ApiClient) (w : World)
  (info : ManagerInfo.t) (old_job_type old_tag : string) :
  snapshot (remote api_client) (lower (platform_system w)) = Some info ->
  flamenco_job_type (scene w) = Some old_job_type ->
  flamenco_worker_tag (scene w) = Some old_tag ->
  old_job_type <> "" ->
  mem old_job_type (job_type_candidates info) = false ->
  old_tag <> "" ->
  mem old_tag (worker_tag_candidates info) = false ->
  fst (comms.ping_manager api_client w)
  = Ok (comms.tag_warning old_tag, "WARNING")
  /\ comms.tag_warning old_tag <> comms.job_type_warning old_job_type
  /\ scene (snd (comms.ping_manager api_client w))
     = {| flamenco_job_type := None; flamenco_worker_tag := None |}.
Proof.
  intros S J T NJ MJ NT MT.
  destruct (ping_manager_fetched _ _ _ S) as [w' [P [SC _]]].
  rewrite P. cbn [fst snd]. rewrite SC, J, T. cbn [old_id].
  unfold refresh_report, reconciled. cbn [old_id].
  rewrite (cleared_spec _ _ NJ MJ), (cleared_spec _ _ NT MT).
  split; [reflexivity|]. split; [apply warnings_differ|reflexivity].
Qed.

Lemma both_cleared_reports_the_tag_witness :
  fst (comms.ping_manager (Samples.client_of Samples.answering)
         (Samples.selected "paint" "cpu-only"))
  = Ok ("Tag 'cpu-only' no longer available, choose another one", "WARNING").
Proof.
  destruct (both_cleared_reports_the_tag
              (Samples.client_of Samples.answering)
              (Samples.selected "paint" "cpu-only") Samples.info
              "paint" "cpu-only" eq_refl eq_refl eq_refl) as [P _];
    [discriminate|reflexivity|discriminate|reflexivity|exact P].
Defined.

Lemma tag_warning_plain (old : string) :
  plain old = true ->
  comms.tag_warning old
  = "Tag '" ++ old ++ "' no longer available, choose another one"
  /\ str_in old (comms.tag_warning old) = true.
Proof.
  intros H. unfold comms.tag_warning. rewrite (repr_plain _ H).
  assert (E : "Tag " ++ String squote_char (old ++ chr squote_char)
                ++ " no longer available, choose another one"
              = "Tag '" ++ old
                  ++ "' no longer available, choose another one").
  { cbn [append]. do 5 f_equal. apply append_assoc. }
  rewrite E. split; [reflexivity|]. apply str_in_app.
Qed.

Lemma job_type_warning_plain (old : string) :
  plain old = true ->
  comms.job_type_warning old
  = "Job type '" ++ old ++ "' no longer available, choose another one"
  /\ str_in old (comms.job_type_warning old) = true.
Proof.
  intros H. unfold comms.job_type_warning. rewrite (repr_plain _ H).
  assert (E : "Job type " ++ String squote_char (old ++ chr squote_char)
                ++ " no longer available, choose another one"
              = "Job type '" ++ old
                  ++ "' no longer available, choose another one").
  { cbn [append]. do 10 f_equal. apply append_assoc. }
  rewrite E. split; [reflexivity|]. apply str_in_app.
Qed.

(** C3, amended. After a refresh whose fetch succeeds, each selection
    whose old id is set and among the candidates (the job-type names of
    the new snapshot; the worker-tag ids of the new snapshot and the id of
    the item for no tag) is that old id, and each whose old id is set and
    not among them is unset, the level of the report being WARNING. The
    report is the warning about the tag when the tag was cleared, the
    warning about the job type when only the job type was, and otherwise
    the version found, with level INFO. A warning is made with [repr] of
    the old id: it holds the old id between single quotes when the id is
    plain (printable characters, no backslash, no single quote). *)
Theorem refresh_reconciles_selections (api_client : ApiClient) (w : World)
  (info : ManagerInfo.t) :
  snapshot (remote api_client) (lower (platform_system w)) = Some info ->
  let old_job_type := old_id (flamenco_job_type (scene w)) in
  let old_tag := old_id (flamenco_worker_tag (scene w)) in
  exists report level w',
    comms.ping_manager api_client w = (Ok (report, level), w')
    /\ (kept old_job_type (job_type_candidates info) = true ->
        flamenco_job_type (scene w') = Some old_job_type)
    /\ (kept old_tag (worker_tag_candidates info) = true ->
        flamenco_worker_tag (scene w') = Some old_tag)
    /\ (cleared old_job_type (job_type_candidates info) = true ->
        flamenco_job_type (scene w') = None /\ level = "WARNING")
    /\ (cleared old_tag (worker_tag_candidates info) = true ->
        flamenco_worker_tag (scene w') = None /\ level = "WARNING"
        /\ report = comms.tag_warning old_tag
        /\ (plain old_tag = true ->
            report = "Tag '" ++ old_tag
                       ++ "' no longer available, choose another one"
            /\ str_in old_tag report = true))
    /\ (cleared old_job_type (job_type_candidates info) = true ->
        cleared old_tag (worker_tag_candidates info) = false ->
        report = comms.job_type_warning old_job_type
        /\ (plain old_job_type = true ->
            report = "Job type '" ++ old_job_type
                       ++ "' no longer available, choose another one"
            /\ str_in old_job_type report = true))
    /\ (cleared old_job_type (job_type_candidates info) = false ->
        cleared old_tag (worker_tag_candidates info) = false ->
        report = found_report info /\ level = "INFO").
Proof.
  intros S. cbv zeta.
  destruct (ping_manager_fetched _ _ _ S) as [w' [P [SC _]]].
  remember (old_id (flamenco_job_type (scene w))) as old_job_type eqn:EJ.
  remember (old_id (flamenco_worker_tag (scene w))) as old_tag eqn:ET.
  exists (fst (refresh_report info old_job_type old_tag)),
         (snd (refresh_report info old_job_type old_tag)), w'.
  split; [rewrite P; destruct (refresh_report _ _ _); reflexivity|].
  rewrite SC. cbn [flamenco_job_type flamenco_worker_tag].
  unfold reconciled, refresh_report. rewrite <- EJ, <- ET.
  repeat split.
  - unfold kept, cleared. intros K. apply andb_prop in K. destruct K as [K1 K2].
    rewrite K2, andb_false_r. subst old_job_type. apply old_id_stored.
    destruct (String.eqb _ ""); [discriminate|reflexivity].
  - unfold kept, cleared. intros K. apply andb_prop in K. destruct K as [K1 K2].
    rewrite K2, andb_false_r. subst old_tag. apply old_id_stored.
    destruct (String.eqb _ ""); [discriminate|reflexivity].
  - rewrite H. reflexivity.
  - rewrite H. destruct (cleared old_tag _); reflexivity.
  - rewrite H. reflexivity.
  - rewrite H. reflexivity.
  - rewrite H. reflexivity.
  - rewrite H. cbn [fst]. apply tag_warning_plain. assumption.
  - rewrite H. cbn [fst]. apply tag_warning_plain. assumption.
  - rewrite H, H0. reflexivity.
  - rewrite H, H0. cbn [fst]. apply job_type_warning_plain. assumption.
  - rewrite H, H0. cbn [fst]. apply job_type_warning_plain. assumption.
  - rewrite H, H0. reflexivity.
  - rewrite H, H0. reflexivity.
Qed.

(** The old job type is still offered and the old tag is not: the job
    type stays, the tag is cleared and the report is the warning about
    the tag. *)
Lemma refresh_reconciles_selections_witness :
  exists w',
    comms.ping_manager (Samples.client_of Samples.answering)
      (Samples.selected "render" "cpu-only")
    = (Ok ("Tag 'cpu-only' no longer available, choose another one",
           "WARNING"), w')
    /\ flamenco_job_type (scene w') = Some "render"
    /\ flamenco_worker_tag (scene w') = None.
Proof.
  destruct (refresh_reconciles_selections
              (Samples.client_of Samples.answering)
              (Samples.selected "render" "cpu-only") Samples.info eq_refl)
    as [report [level [w' [P [KJ [_ [_ [CT _]]]]]]]].
  destruct (CT eq_refl) as [T [L [_ R]]].
  destruct (R eq_refl) as [R' _].
  exists w'. rewrite P, R', L. split; [reflexivity|].
  split; [exact (KJ eq_refl)|exact T].
Defined.

(** C3 as stated fails: the old job type [paint] is set and no candidate,
    so is the old tag; the report that is returned is the warning about
    the tag and does not hold the old job type. *)
Lemma cleared_job_type_missing_from_report :
  flamenco_job_type (scene (Samples.selected "paint" "cpu-only")) = Some "paint"
  /\ mem "paint" (job_type_candidates Samples.info) = false
  /\ fst (comms.ping_manager (Samples.client_of Samples.answering)
            (Samples.selected "paint" "cpu-only"))
     = Ok ("Tag 'cpu-only' no longer available, choose another one",
           "WARNING")
  /\ str_in "paint" "Tag 'cpu-only' no longer available, choose another one"
     = false.
Proof. repeat split. Qed.

(** * Further properties *)

(** ** The cache file *)



(** A text in which no value begins is no JSON: the scanner stops at its
    first character, or the parser at its first token. *)
Lemma expects_value_scan (text : string) :
  expects_value text = true ->
  match scan LStart text with
  | Some ts => forall fuel, parse_value fuel ts = None
  | None => True
  end.
Proof.
  induction text as [|c rest IH]; cbn [expects_value scan finish step].
  - intros _ [|fuel]; reflexivity.
  - unfold start_char. destruct (is_whitespace c) eqn:W.
    + intros E. specialize (IH E).
      destruct (scan LStart rest); [exact IH|exact I].
    + intros B. apply negb_true_iff in B. unfold begins_value in B.
      repeat (apply orb_false_iff in B; destruct B as [B ?]).
      repeat match goal with
             | H : _ = false |- _ => rewrite H; clear H
             end.
      repeat match goal with
             | |- context [if Ascii.eqb c ?x then _ else _] =>
                 destruct (Ascii.eqb c x)
             end;
        try exact I;
        (destruct (scan LStart rest); [|exact I]); intros [|fuel];
        reflexivity.
Qed.

Lemma expects_value_loads (text : string) :
  expects_value text = true -> loads text = None.
Proof.
  intros E. pose proof (expects_value_scan text E) as S. unfold loads.
  destruct (scan LStart text) as [ts|]; [|reflexivity].
  rewrite (S _). reflexivity.
Qed.

(** X2. A cache file in which no JSON value begins (an empty or blank
    file, or one whose first character after the white space cannot begin
    a value): [load] raises the [LoadError] that names the file, and
    [load_into_cache] returns [None], leaves nothing cached and prints
    one line, which holds the text of that error. *)
Theorem undecodable_file_is_absorbed (w : World) (text : string) :
  cache_file w = Contents text ->
  expects_value text = true ->
  exists directory,
    manager_info.load w
    = (Raise (Exn LoadError
                ("Could not decode JSON in "
                   ++ directory ++ "flamenco-manager-info.json")), w)
    /\ manager_info.load_into_cache w
       = (Ok None,
          set_stdout
            (stdout w ++
             ["Could not load Flamenco Manager info from disk: "
                ++ "Could not decode JSON in "
                ++ directory ++ "flamenco-manager-info.json"])
            (set_cached_manager_info None w)).
Proof.
  intros F E. exists ((resource_path_user w ++ "/config") ++ "/").
  assert (L : manager_info.load w
              = (Raise (Exn LoadError
                          ("Could not decode JSON in "
                             ++ ((resource_path_user w ++ "/config") ++ "/")
                             ++ "flamenco-manager-info.json")), w)).
  { rewrite load_unfold, F. unfold manager_info._from_json,
      manager_info.json_loads. rewrite (expects_value_loads text E).
    cbn [rbind isinstance exn_cls issubclass exn_class_eqb orb].
    rewrite (append_assoc (resource_path_user w ++ "/config") "/").
    reflexivity. }
  split; [exact L|]. rewrite load_into_cache_unfold, L. reflexivity.
Qed.

(** A file emptied by a write that did not finish. *)
Lemma undecodable_file_is_absorbed_witness :
  fst (manager_info.load_into_cache
         (set_cache_file (Contents "") (Samples.selected "render" "gpu")))
  = Ok None
  /\ _cached_manager_info
       (snd (manager_info.load_into_cache
               (set_cache_file (Contents "")
                  (Samples.selected "render" "gpu"))))
     = None.
Proof.
  destruct (undecodable_file_is_absorbed
              (set_cache_file (Contents "") (Samples.selected "render" "gpu"))
              "" eq_refl eq_refl) as [directory [_ C]].
  rewrite C. split; reflexivity.
Defined.

(** X3. No cache file: [load] raises the [FileNotFoundError] that names
    the file and changes nothing; [load_into_cache] returns [None] and
    prints nothing, the only change being that nothing is cached. *)
Theorem missing_file_is_silent (w : World) :
  cache_file w = Missing ->
  (exists directory,
      manager_info.load w
      = (Raise (Exn FileNotFoundError
                  ("flamenco-manager-info.json not found in " ++ directory)),
         w))
  /\ manager_info.load_into_cache w
     = (Ok None, set_cached_manager_info None w)
  /\ stdout (snd (manager_info.load_into_cache w)) = stdout w.
Proof.
  intros F.
  assert (L : manager_info.load w
              = (Raise (Exn FileNotFoundError
                          ("flamenco-manager-info.json not found in "
                             ++ (resource_path_user w ++ "/config"))), w)).
  { rewrite load_unfold, F. reflexivity. }
  split; [eexists; exact L|].
  rewrite load_into_cache_unfold, L. split; reflexivity.
Qed.

Lemma missing_file_is_silent_witness :
  manager_info.load_into_cache Samples.fresh = (Ok None, Samples.fresh).
Proof.
  destruct (missing_file_is_silent Samples.fresh eq_refl) as [_ [C _]].
  exact C.
Defined.

(** X4. A cache file that is there and cannot be read: the [OSError] of
    the read becomes a [LoadError] that names the file and ends with the
    text of the [OSError], and [load_into_cache] returns [None] and
    prints one line, which holds the text of the [LoadError]. *)
Theorem unreadable_file_is_absorbed (w : World) (why : string) :
  cache_file w = Unreadable why ->
  exists directory,
    manager_info.load w
    = (Raise (Exn LoadError
                ("Could not read " ++ directory
                   ++ "flamenco-manager-info.json" ++ ": " ++ why)), w)
    /\ fst (manager_info.load_into_cache w) = Ok None
    /\ stdout (snd (manager_info.load_into_cache w))
       = List.app (stdout w)
           ["Could not load Flamenco Manager info from disk: "
              ++ "Could not read " ++ directory
              ++ "flamenco-manager-info.json" ++ ": " ++ why].
Proof.
  intros F. exists ((resource_path_user w ++ "/config") ++ "/").
  assert (L : manager_info.load w
              = (Raise (Exn LoadError
                          ("Could not read "
                             ++ ((resource_path_user w ++ "/config") ++ "/")
                             ++ "flamenco-manager-info.json" ++ ": " ++ why)),
                 w)).
  { rewrite load_unfold, F.
    rewrite (append_assoc (resource_path_user w ++ "/config") "/").
    rewrite (append_assoc (resource_path_user w ++ "/config")).
    reflexivity. }
  split; [exact L|]. rewrite load_into_cache_unfold, L.
  split; reflexivity.
Qed.

Lemma unreadable_file_is_absorbed_witness :
  fst (manager_info.load_into_cache
         (set_cache_file (Unreadable "Permission denied") Samples.fresh))
  = Ok None.
Proof.
  destruct (unreadable_file_is_absorbed
              (set_cache_file (Unreadable "Permission denied") Samples.fresh)
              "Permission denied" eq_refl) as [directory [_ [C _]]].
  exact C.
Defined.

(** X5. A cache file that holds a JSON document that is no object (a
    list, a string, [true], [false] or [null]) and is written without a
    number literal: the lookup of the first key raises [TypeError], which
    [load] and [load_into_cache] let through. *)
Theorem load_of_a_non_object_raises_TypeError (w : World) (text : string)
  (v : json) :
  cache_file w = Contents text ->
  loads text = Some v ->
  no_number_literal text = true ->
  (forall d, v <> JDict d) ->
  exists msg,
    manager_info.load w = (Raise (Exn TypeError msg), w)
    /\ manager_info.load_into_cache w
       = (Raise (Exn TypeError msg), set_cached_manager_info None w).
Proof.
  intros F P _ N.
  assert (G : exists msg,
             manager_info._from_json text = Raise (Exn TypeError msg)).
  { unfold manager_info._from_json, manager_info.json_loads. rewrite P.
    cbn [rbind ManagerInfo.type_info rmap].
    destruct v; cbn [manager_info.getitem rbind]; eauto.
    exfalso. apply (N d). reflexivity. }
  destruct G as [msg G]. exists msg.
  assert (L : manager_info.load w = (Raise (Exn TypeError msg), w)).
  { rewrite load_unfold, F, G. reflexivity. }
  split; [exact L|]. rewrite load_into_cache_unfold, L. reflexivity.
Qed.

Lemma load_of_a_non_object_raises_TypeError_witness :
  exists msg,
    manager_info.load (set_cache_file (Contents "[]") Samples.fresh)
    = (Raise (Exn TypeError msg), set_cache_file (Contents "[]") Samples.fresh).
Proof.
  destruct (load_of_a_non_object_raises_TypeError
              (set_cache_file (Contents "[]") Samples.fresh) "[]" (JList [])
              eq_refl eq_refl eq_refl) as [msg [L _]].
  - intros d. discriminate.
  - exists msg. exact L.
Defined.

(** X6. A cache file that holds a JSON object without one of the four
    keys: [load] raises the [KeyError] of the missing key, or the
    [SchemaError] of an earlier key, and [load_into_cache] lets it
    through, having dropped the cached snapshot. It is no [LoadError] and
    it is not absorbed. *)
Theorem missing_key_escapes_the_cache (w : World) (text name : string)
  (json_dict : list (string * json)) :
  cache_file w = Contents text ->
  loads text = Some (JDict json_dict) ->
  In name field_names ->
  lookup name json_dict = None ->
  exists ex,
    manager_info.load w = (Raise ex, w)
    /\ manager_info.load_into_cache w
       = (Raise ex, set_cached_manager_info None w)
    /\ (exn_cls ex = KeyError \/ exn_cls ex = SchemaError).
Proof.
  intros F P I L.
  destruct (load_missing_key_is_no_LoadError w text name json_dict P I L)
    as [ex [E C]].
  assert (W : set_cache_file (Contents text) w = w).
  { destruct w. cbn in F. subst. reflexivity. }
  rewrite W in E. exists ex. split; [exact E|]. split; [|exact C].
  rewrite load_into_cache_unfold, E. cbn [fst].
  destruct C as [C|C]; unfold isinstance; rewrite C; reflexivity.
Qed.

(** The file holds the version only. *)
Lemma missing_key_escapes_the_cache_witness :
  exists ex,
    manager_info.load
      (set_cache_file
         (Contents
            (dumps (JDict [("flamenco_version",
                            to_dict (MFlamencoVersion Samples.version))])))
         Samples.fresh)
    = (Raise ex,
       set_cache_file
         (Contents
            (dumps (JDict [("flamenco_version",
                            to_dict (MFlamencoVersion Samples.version))])))
         Samples.fresh)
    /\ (exn_cls ex = KeyError \/ exn_cls ex = SchemaError).
Proof.
  destruct (missing_key_escapes_the_cache
              (set_cache_file
                 (Contents
                    (dumps (JDict [("flamenco_version",
                                    to_dict (MFlamencoVersion
                                               Samples.version))])))
                 Samples.fresh)
              _ "job_types" _ eq_refl eq_refl) as [ex [L [_ C]]].
  - right. right. left. reflexivity.
  - reflexivity.
  - exists ex. split; [exact L | exact C].
Defined.

(** X7. [_from_json] reads the four keys and nothing else: two JSON objects
    that agree on the four keys decode alike, whatever other keys they
    hold and in whatever order. *)
Theorem from_json_reads_the_four_keys (text1 text2 : string)
  (d1 d2 : list (string * json)) :
  loads text1 = Some (JDict d1) ->
  loads text2 = Some (JDict d2) ->
  (forall name, In name field_names -> lookup name d1 = lookup name d2) ->
  manager_info._from_json text1 = manager_info._from_json text2.
Proof.
  intros P1 P2 H.
  unfold manager_info._from_json, manager_info.json_loads.
  rewrite P1, P2. cbn [rbind ManagerInfo.type_info rmap manager_info.getitem].
  rewrite (H "flamenco_version"), (H "shared_storage"), (H "job_types"),
    (H "worker_tags"); [reflexivity| | | |]; cbn; auto.
Qed.

(** The same document with a key more, put first. *)
Lemma from_json_reads_the_four_keys_witness :
  manager_info._from_json
    (dumps (JDict (("comment", JStr "written by hand")
                     :: match document Samples.info with
                        | JDict d => d
                        | _ => []
                        end)))
  = Ok Samples.info.
Proof.
  rewrite (from_json_reads_the_four_keys _ (dumps (document Samples.info))
             (("comment", JStr "written by hand")
                :: match document Samples.info with
                   | JDict d => d
                   | _ => []
                   end)
             (match document Samples.info with JDict d => d | _ => [] end)).
  - reflexivity.
  - reflexivity.
  - reflexivity.
  - intros name [<-|[<-|[<-|[<-|[]]]]]; reflexivity.
Defined.

(** X8. [load_cached] reads the file at most once: when it has returned a
    snapshot, it returns that snapshot again and changes nothing,
    whatever has become of the cache file. *)
Theorem load_cached_keeps_what_it_returned (w w1 : World)
  (info : ManagerInfo.t) :
  manager_info.load_cached w = (Ok (Some info), w1) ->
  _cached_manager_info w1 = Some info
  /\ forall file,
       manager_info.load_cached (set_cache_file file w1)
       = (Ok (Some info), set_cache_file file w1).
Proof.
  intros H.
  assert (C : _cached_manager_info w1 = Some info).
  { revert H. unfold manager_info.load_cached. run.
    destruct (_cached_manager_info w) as [i|] eqn:E.
    - intros [= <- <-]. exact E.
    - rewrite load_into_cache_unfold.
      destruct (fst (manager_info.load w)) as [i|ex].
      + intros [= <- <-]. reflexivity.
      + destruct (isinstance ex FileNotFoundError); [discriminate|].
        destruct (isinstance ex LoadError); discriminate. }
  split; [exact C|]. intros file. unfold manager_info.load_cached. run.
  cbn [_cached_manager_info set_cache_file]. rewrite C. reflexivity.
Qed.

Lemma load_cached_keeps_what_it_returned_witness :
  manager_info.load_cached
    (set_cache_file Missing
       (snd (manager_info.load_cached
               (set_cache_file (Contents (dumps (document Samples.info)))
                  Samples.fresh))))
  = (Ok (Some Samples.info),
     set_cache_file Missing
       (snd (manager_info.load_cached
               (set_cache_file (Contents (dumps (document Samples.info)))
                  Samples.fresh)))).
Proof.
  destruct (load_cached_keeps_what_it_returned
              (set_cache_file (Contents (dumps (document Samples.info)))
                 Samples.fresh)
              (snd (manager_info.load_cached
                      (set_cache_file
                         (Contents (dumps (document Samples.info)))
                         Samples.fresh)))
              Samples.info eq_refl) as [_ H].
  apply H.
Defined.

(** X9. The file [_to_json] describes is a JSON object with the four
    field names of the dataclass as its keys, in the order of the
    fields. *)
Theorem to_json_writes_the_four_keys (info : ManagerInfo.t) :
  valid info = true ->
  exists text d,
    manager_info._to_json info = Ok text
    /\ loads text = Some (JDict d)
    /\ map fst d = field_names.
Proof.
  intros V. exists (dumps (document info)). eexists.
  split; [reflexivity|]. split.
  - rewrite (loads_dumps _ (wf_document _ V)). reflexivity.
  - reflexivity.
Qed.

Lemma to_json_writes_the_four_keys_witness :
  exists text d,
    manager_info._to_json Samples.info = Ok text
    /\ loads text = Some (JDict d)
    /\ map fst d = field_names.
Proof. apply (to_json_writes_the_four_keys Samples.info). reflexivity. Defined.

(** X10. Decoding is all or nothing: [_from_json] returns a snapshot only
    for a JSON document in which each of the four keys is present with a
    value that fits the schema of its field, and the fields of the
    snapshot are the values so converted. *)
Theorem from_json_converts_every_field (text : string)
  (info : ManagerInfo.t) :
  manager_info._from_json text = Ok info ->
  exists json_dict,
    loads text = Some json_dict
    /\ forall name api_model,
         In (name, api_model) (ManagerInfo.fields info) ->
         exists item api_type,
           In (name, api_type) ManagerInfo.type_info
           /\ manager_info.getitem json_dict name = Ok item
           /\ validate_and_convert_types item api_type [name] = Ok api_model.
Proof.
  unfold manager_info._from_json, manager_info.json_loads.
  destruct (loads text) as [json_dict|]; cbn [rbind]; [|discriminate].
  intros H. exists json_dict. split; [reflexivity|].
  unfold ManagerInfo.type_info in *. cbn [rmap] in H.
  destruct (manager_info.getitem json_dict "flamenco_version") as [i1|] eqn:G1;
    cbn [rbind] in H; [|discriminate].
  destruct (validate_and_convert_types i1 _ _) as [m1|] eqn:V1;
    cbn [rbind] in H; [|discriminate].
  destruct (manager_info.getitem json_dict "shared_storage") as [i2|] eqn:G2;
    cbn [rbind] in H; [|discriminate].
  destruct (validate_and_convert_types i2 _ _) as [m2|] eqn:V2;
    cbn [rbind] in H; [|discriminate].
  destruct (manager_info.getitem json_dict "job_types") as [i3|] eqn:G3;
    cbn [rbind] in H; [|discriminate].
  destruct (validate_and_convert_types i3 _ _) as [m3|] eqn:V3;
    cbn [rbind] in H; [|discriminate].
  destruct (manager_info.getitem json_dict "worker_tags") as [i4|] eqn:G4;
    cbn [rbind] in H; [|discriminate].
  destruct (validate_and_convert_types i4 _ _) as [m4|] eqn:V4;
    cbn [rbind] in H; [|discriminate].
  unfold ManagerInfo.init in H. cbn in H.
  destruct m1; try discriminate. destruct m2; try discriminate.
  destruct m3; try discriminate. destruct m4; try discriminate.
  injection H as <-.
  intros name api_model [E|[E|[E|[E|[]]]]]; injection E as <- <-;
    eexists; eexists; (split; [|split; eassumption]); cbn; auto.
Qed.

Lemma from_json_converts_every_field_witness :
  exists item,
    manager_info.getitem (document Samples.info) "worker_tags" = Ok item
    /\ validate_and_convert_types item TWorkerTagList ["worker_tags"]
       = Ok (MWorkerTagList (ManagerInfo.worker_tags Samples.info)).
Proof.
  destruct (from_json_converts_every_field (dumps (document Samples.info))
              Samples.info eq_refl) as [json_dict [P H]].
  injection P as <-.
  destruct (H "worker_tags"
              (MWorkerTagList (ManagerInfo.worker_tags Samples.info)))
    as [item [ty [I [G V]]]].
  - right. right. right. left. reflexivity.
  - exists item. split; [exact G|].
    destruct I as [I|[I|[I|[I|[]]]]]; try discriminate I.
    injection I as <-. exact V.
Defined.

(** ** The items of the worker tag selection *)

Lemma get_enum_items_cold (w : World) :
  _cached_manager_info w = None ->
  worker_tags._get_enum_items w
  = match manager_info.load_into_cache w with
    | (Ok (Some info), w') =>
        (Ok (worker_tag_items info), set_enum_items (worker_tag_items info) w')
    | (Ok None, w') => (Ok [tags_unknown], set_enum_items [tags_unknown] w')
    | (Raise ex, w') => (Raise ex, w')
    end.
Proof.
  intros C. unfold worker_tags._get_enum_items, manager_info.load_cached.
  run. rewrite C.
  destruct (manager_info.load_into_cache w) as [[[info|]|ex] w'];
    try reflexivity.
  run. rewrite for_each_items. reflexivity.
Qed.

Lemma load_into_cache_caches_its_result (w w' : World)
  (r : option ManagerInfo.t) :
  manager_info.load_into_cache w = (Ok r, w') -> _cached_manager_info w' = r.
Proof.
  rewrite load_into_cache_unfold.
  destruct (fst (manager_info.load w)) as [i|ex].
  - intros [= <- <-]. reflexivity.
  - destruct (isinstance ex FileNotFoundError); [intros [= <- <-]; reflexivity|].
    destruct (isinstance ex LoadError); [intros [= <- <-]; reflexivity|].
    discriminate.
Qed.

(** X11. Whenever [_get_enum_items] returns, the list it returns is the
    module's [_enum_items], its first item is the one with identifier
    ["-"], and it is made of the snapshot in memory: that item and one
    item per worker tag, in their order, or, with no snapshot in memory,
    the placeholder alone. *)
Theorem get_enum_items_follows_the_cache (w w' : World)
  (items : list enum_item) :
  worker_tags._get_enum_items w = (Ok items, w') ->
  _enum_items w' = items
  /\ hd_error (map bpy.identifier items) = Some "-"
  /\ items = match _cached_manager_info w' with
             | Some info => worker_tag_items info
             | None => [tags_unknown]
             end.
Proof.
  destruct (_cached_manager_info w) as [info|] eqn:C.
  - rewrite (get_enum_items_cached w info C). intros [= <- <-].
    cbn [_enum_items set_enum_items _cached_manager_info]. rewrite C.
    repeat split.
  - rewrite (get_enum_items_cold w C).
    destruct (manager_info.load_into_cache w) as [[[info|]|ex] w1] eqn:L;
      [| |discriminate]; intros [= <- <-];
      cbn [_enum_items set_enum_items _cached_manager_info];
      rewrite (load_into_cache_caches_its_result _ _ _ L); repeat split.
Qed.

Lemma get_enum_items_follows_the_cache_witness :
  _enum_items (snd (worker_tags._get_enum_items (Samples.selected "render" "gpu")))
  = worker_tag_items Samples.older_info.
Proof.
  destruct (get_enum_items_follows_the_cache
              (Samples.selected "render" "gpu")
              (snd (worker_tags._get_enum_items
                      (Samples.selected "render" "gpu")))
              (worker_tag_items Samples.older_info) eq_refl) as [E _].
  exact E.
Defined.

(** X12. With nothing in memory and no usable cache file (none, one that
    cannot be read, or one in which no JSON value begins) the selection
    offers the placeholder ["-tags unknown-"] alone, and no exception
    reaches the caller. *)
Theorem tags_unknown_without_a_usable_file (w : World) :
  _cached_manager_info w = None ->
  cache_file w = Missing
  \/ (exists why, cache_file w = Unreadable why)
  \/ (exists text, cache_file w = Contents text /\ expects_value text = true) ->
  fst (worker_tags._get_enum_items w) = Ok [tags_unknown].
Proof.
  intros C F. rewrite (get_enum_items_cold w C), load_into_cache_unfold,
    load_unfold.
  destruct F as [F|[[why F]|[text [F P]]]]; rewrite F; cbn [fst].
  - reflexivity.
  - reflexivity.
  - unfold manager_info._from_json, manager_info.json_loads.
    rewrite (expects_value_loads text P). reflexivity.
Qed.

Lemma tags_unknown_without_a_usable_file_witness :
  fst (worker_tags._get_enum_items
         (set_cache_file (Contents "<!DOCTYPE html>") Samples.fresh))
  = Ok [tags_unknown].
Proof.
  apply tags_unknown_without_a_usable_file.
  - reflexivity.
  - right. right. eexists. split; reflexivity.
Defined.

(** ** The refresh as a whole *)

(** The world a refresh leaves when the fetch succeeded: the snapshot in
    memory and on disk, the candidates of the job type selection, the two
    selections reconciled, the status line; the items of the worker tag
    selection are rebuilt on the way, and nothing else changes. *)
Lemma ping_manager_fetched_world (api_client : ApiClient) (w : World)
  (info : ManagerInfo.t) :
  snapshot (remote api_client) (lower (platform_system w)) = Some info ->
  let report :=
    refresh_report info (old_id (flamenco_job_type (scene w)))
      (old_id (flamenco_worker_tag (scene w))) in
  exists w',
    comms.ping_manager api_client w = (Ok report, w')
    /\ set_enum_items (_enum_items w) w'
       = set_window_manager {| flamenco_status_ping := fst report |}
           (set_scene
              {| flamenco_job_type :=
                   reconciled (flamenco_job_type (scene w))
                     (job_type_candidates info);
                 flamenco_worker_tag :=
                   reconciled (flamenco_worker_tag (scene w))
                     (worker_tag_candidates info) |}
              (set_available_job_types
                 (AvailableJobTypes.job_types (ManagerInfo.job_types info))
                 (set_cache_file (Contents (dumps (document info)))
                    (set_cached_manager_info (Some info) w)))).
Proof.
  intros S report. subst report.
  unfold comms.ping_manager, bpy.set_status_ping, bpy.getattr.
  run. cbn [scene set_window_manager bpy.stored].
  change (match flamenco_job_type (scene w) with Some v => v | None => "" end)
    with (old_id (flamenco_job_type (scene w))).
  change (match flamenco_worker_tag (scene w) with Some v => v | None => "" end)
    with (old_id (flamenco_worker_tag (scene w))).
  rewrite (fetch_succeeds api_client _ info) by exact S.
  unfold manager_info.save, manager_info._json_filepath, manager_info.mkdir,
    manager_info.write_text, job_types.refresh_scene_properties. run.
  rewrite to_json_document. run.
  match goal with
  | |- context [comms.restore bpy.flamenco_job_type_prop _ _ ?r ?w0] =>
      pose proof (restore_job_type w0 r) as RJ
  end.
  cbn [scene set_available_job_types set_cache_file set_cached_manager_info
       set_window_manager _available_job_types] in RJ.
  cbv zeta in RJ. rewrite RJ. clear RJ.
  match goal with
  | |- context [comms.restore bpy.flamenco_worker_tag_prop _ _ ?r ?w0] =>
      destruct (restore_worker_tag w0 info r eq_refl) as [w' [RT [SC FR]]]
  end.
  cbn [scene set_scene flamenco_worker_tag flamenco_job_type] in RT, SC.
  change (if cleared (old_id (flamenco_worker_tag (scene w)))
               (worker_tag_candidates info)
          then (comms.tag_warning (old_id (flamenco_worker_tag (scene w))),
                "WARNING")
          else _)
    with (refresh_report info (old_id (flamenco_job_type (scene w)))
            (old_id (flamenco_worker_tag (scene w)))) in RT.
  rewrite RT. eexists. split; [reflexivity|].
  rewrite SC in FR. cbn [_enum_items set_scene] in FR.
  destruct w'; destruct w; cbn in FR |- *. injection FR as -> -> -> -> -> -> -> -> -> -> -> -> ->.
  reflexivity.
Qed.

(** What [ping_manager] makes of a fetch that raised. *)
Lemma ping_manager_fetch_raised (api_client : ApiClient) (w w1 : World)
  (ex : exn) :
  manager_info.fetch api_client
    (set_window_manager {| flamenco_status_ping := "..." |} w)
  = (Raise ex, w1) ->
  comms.ping_manager api_client w
  = if isinstance ex FetchError
    then (Ok (exn_str ex, "ERROR"),
          set_window_manager {| flamenco_status_ping := exn_str ex |} w1)
    else (Raise ex, w1).
Proof.
  intros F. unfold comms.ping_manager, bpy.set_status_ping, bpy.getattr.
  run. rewrite F. destruct (isinstance ex FetchError); reflexivity.
Qed.

(** What [ping_manager] does when one of the four calls raised. *)
Lemma ping_manager_failed (api_client : ApiClient) (w : World) (ex : exn) :
  first_failure (remote api_client) (lower (platform_system w)) = Some ex ->
  exists raised,
    comms.ping_manager api_client w
    = (if isinstance raised FetchError
       then (Ok (exn_str raised, "ERROR"),
             set_window_manager {| flamenco_status_ping := exn_str raised |} w)
       else (Raise raised,
             set_window_manager {| flamenco_status_ping := "..." |} w))
    /\ (transport_or_api_error ex = true -> exn_cls raised = FetchError)
    /\ (transport_or_api_error ex = false -> raised = ex).
Proof.
  intros F.
  pose proof (fetch_fails api_client
                (set_window_manager {| flamenco_status_ping := "..." |} w)
                ex F) as R.
  match type of R with _ = (Raise ?e, _) => exists e end.
  split; [|split].
  - rewrite (ping_manager_fetch_raised _ _ _ _ R).
    match goal with |- (if ?b then _ else _) = _ => destruct b end;
      reflexivity.
  - apply transport_or_api_error_FetchError.
  - unfold transport_or_api_error. intros T.
    apply orb_false_iff in T as [A H]. rewrite A, H.
    destruct (isinstance ex MaxRetryError) eqn:X; [|reflexivity].
    destruct ex as [[] ?]; discriminate.
Qed.

Lemma cleared_reconciled (selection : option string)
  (candidates : list string) :
  cleared (old_id (reconciled selection candidates)) candidates = false.
Proof.
  unfold reconciled.
  destruct (cleared (old_id selection) candidates) eqn:E; [reflexivity|exact E].
Qed.

(** X13. After a refresh whose fetch succeeded, the worker tag selection
    offers the tags that were fetched, whatever becomes of the cache
    file. *)
Theorem refresh_shows_the_fetched_tags (api_client : ApiClient) (w : World)
  (info : ManagerInfo.t) :
  snapshot (remote api_client) (lower (platform_system w)) = Some info ->
  exists report w',
    comms.ping_manager api_client w = (Ok report, w')
    /\ forall file,
         fst (worker_tags._get_enum_items (set_cache_file file w'))
         = Ok (worker_tag_items info).
Proof.
  intros S.
  destruct (ping_manager_fetched api_client w info S) as [w' [P [_ [C _]]]].
  eexists. exists w'. split; [exact P|]. intros file.
  rewrite (get_enum_items_cached _ info); [reflexivity|exact C].
Qed.

Lemma refresh_shows_the_fetched_tags_witness :
  exists report w',
    comms.ping_manager (Samples.client_of Samples.answering)
      (Samples.selected "render" "cpu-only") = (Ok report, w')
    /\ forall file,
         fst (worker_tags._get_enum_items (set_cache_file file w'))
         = Ok (worker_tag_items Samples.info).
Proof.
  apply (refresh_shows_the_fetched_tags
           (Samples.client_of Samples.answering)
           (Samples.selected "render" "cpu-only") Samples.info).
  reflexivity.
Defined.

(** X14. A worker tag selection of ["-"], any worker, survives every
    refresh whose fetch succeeds, and the report then speaks of the job
    type or of the version found, never of the tag. *)
Theorem any_worker_survives_a_refresh (api_client : ApiClient) (w : World)
  (info : ManagerInfo.t) :
  snapshot (remote api_client) (lower (platform_system w)) = Some info ->
  flamenco_worker_tag (scene w) = Some "-" ->
  exists w',
    comms.ping_manager api_client w
    = (Ok (if cleared (old_id (flamenco_job_type (scene w)))
                (job_type_candidates info)
           then (comms.job_type_warning
                   (old_id (flamenco_job_type (scene w))), "WARNING")
           else (found_report info, "INFO")), w')
    /\ flamenco_worker_tag (scene w') = Some "-".
Proof.
  intros S T.
  destruct (ping_manager_fetched api_client w info S) as [w' [P [SC _]]].
  exists w'. rewrite P, SC, T. split; reflexivity.
Qed.

Lemma any_worker_survives_a_refresh_witness :
  exists w',
    comms.ping_manager (Samples.client_of Samples.answering)
      (Samples.selected "simulate" "-")
    = (Ok ("Flamenco version 3.5 found", "INFO"), w')
    /\ flamenco_worker_tag (scene w') = Some "-".
Proof.
  apply (any_worker_survives_a_refresh
           (Samples.client_of Samples.answering)
           (Samples.selected "simulate" "-") Samples.info);
    reflexivity.
Defined.

(** X15. Refreshing again against a Manager that answers the same is
    quiet: the second refresh reports the version found at level INFO,
    whatever the first one cleared, and leaves the cache file and the
    snapshot in memory as the first one left them; when the first one
    cleared neither selection, it leaves the selections as well. *)
Theorem second_refresh_is_quiet (api_client : ApiClient) (w : World)
  (info : ManagerInfo.t) :
  snapshot (remote api_client) (lower (platform_system w)) = Some info ->
  exists report w1 w2,
    comms.ping_manager api_client w = (Ok report, w1)
    /\ comms.ping_manager api_client w1 = (Ok (found_report info, "INFO"), w2)
    /\ cache_file w2 = cache_file w1
    /\ _cached_manager_info w2 = _cached_manager_info w1
    /\ (cleared (old_id (flamenco_job_type (scene w)))
          (job_type_candidates info) = false ->
        cleared (old_id (flamenco_worker_tag (scene w)))
          (worker_tag_candidates info) = false ->
        report = (found_report info, "INFO") /\ scene w2 = scene w1).
Proof.
  intros S.
  destruct (ping_manager_fetched_world api_client w info S)
    as [w1 [P1 W1]]. cbv zeta in W1.
  assert (PS : platform_system w1 = platform_system w).
  { apply (f_equal platform_system) in W1. exact W1. }
  assert (S1 : snapshot (remote api_client) (lower (platform_system w1))
               = Some info) by (rewrite PS; exact S).
  destruct (ping_manager_fetched api_client w info S)
    as [w1' [P1' [SC1 [C1 [F1 _]]]]].
  rewrite P1 in P1'. injection P1' as <-.
  destruct (ping_manager_fetched api_client w1 info S1)
    as [w2 [P2 [SC2 [C2 [F2 _]]]]].
  eexists. exists w1, w2. split; [exact P1|]. split; [|split; [|split]].
  - rewrite P2. unfold refresh_report. rewrite SC1.
    cbn [flamenco_job_type flamenco_worker_tag].
    rewrite !cleared_reconciled. reflexivity.
  - rewrite F2, F1. reflexivity.
  - rewrite C2, C1. reflexivity.
  - intros J T. split.
    + unfold refresh_report. rewrite T, J. reflexivity.
    + rewrite SC2, SC1. cbn [flamenco_job_type flamenco_worker_tag].
      unfold reconciled at 1 3. rewrite !cleared_reconciled. reflexivity.
Qed.

Lemma second_refresh_is_quiet_witness :
  exists report w1 w2,
    comms.ping_manager (Samples.client_of Samples.answering)
      (Samples.selected "simulate" "gpu") = (Ok report, w1)
    /\ comms.ping_manager (Samples.client_of Samples.answering) w1
       = (Ok ("Flamenco version 3.5 found", "INFO"), w2)
    /\ report = ("Flamenco version 3.5 found", "INFO")
    /\ scene w2 = scene w1.
Proof.
  destruct (second_refresh_is_quiet (Samples.client_of Samples.answering)
              (Samples.selected "simulate" "gpu") Samples.info eq_refl)
    as [report [w1 [w2 [P1 [P2 [_ [_ K]]]]]]].
  exists report, w1, w2. split; [exact P1|]. split; [exact P2|].
  apply K; reflexivity.
Defined.

(** X16. Whenever [ping_manager] returns, the status line of the window
    manager is the report it returns, and the level is one of INFO,
    WARNING and ERROR. *)
Theorem status_line_is_the_report (api_client : ApiClient) (w w' : World)
  (report level : string) :
  comms.ping_manager api_client w = (Ok (report, level), w') ->
  flamenco_status_ping (window_manager w') = report
  /\ In level ["INFO"; "WARNING"; "ERROR"].
Proof.
  destruct (first_failure (remote api_client) (lower (platform_system w)))
    as [ex|] eqn:F.
  - destruct (ping_manager_failed api_client w ex F) as [raised [P _]].
    rewrite P. destruct (isinstance raised FetchError); [|discriminate].
    intros [= <- <- <-]. split; [reflexivity|]. cbn. auto.
  - apply (snapshot_first_failure api_client w) in F as [info S].
    destruct (ping_manager_fetched api_client w info S)
      as [w1 [P [_ [_ [_ L]]]]].
    rewrite P. intros E. injection E as E <-. rewrite L, E. split;
      [reflexivity|].
    revert E. unfold refresh_report.
    destruct (cleared _ (worker_tag_candidates info));
      [|destruct (cleared _ (job_type_candidates info))];
      intros [= _ <-]; cbn; auto.
Qed.

Lemma status_line_is_the_report_witness :
  flamenco_status_ping
    (window_manager
       (snd (comms.ping_manager
               (Samples.client_of (Samples.failing Samples.not_found))
               Samples.fresh)))
  = "Manager cannot be reached: (404) Reason: Not Found".
Proof.
  apply (status_line_is_the_report
           (Samples.client_of (Samples.failing Samples.not_found))
           Samples.fresh _ _ "ERROR").
  reflexivity.
Defined.

(** X17. An exception of one of the four calls that is neither an
    [ApiException] nor an [HTTPError], nor a [FetchError] itself, leaves
    [ping_manager] as it is: nothing is reported, the status line stays
    at the three dots, and the selections and the cache file are as they
    were. *)
Theorem refresh_lets_other_exceptions_through (api_client : ApiClient)
  (w : World) (ex : exn) :
  first_failure (remote api_client) (lower (platform_system w)) = Some ex ->
  transport_or_api_error ex = false ->
  isinstance ex FetchError = false ->
  exists w',
    comms.ping_manager api_client w = (Raise ex, w')
    /\ flamenco_status_ping (window_manager w') = "..."
    /\ scene w' = scene w
    /\ cache_file w' = cache_file w.
Proof.
  intros F T N.
  destruct (ping_manager_failed api_client w ex F) as [raised [P [_ R]]].
  rewrite (R T) in P. rewrite P, N. eexists. split; [reflexivity|].
  repeat split.
Qed.

Lemma refresh_lets_other_exceptions_through_witness :
  exists w',
    comms.ping_manager
      (Samples.client_of (Samples.failing Samples.validation_error))
      (Samples.selected "render" "gpu")
    = (Raise Samples.validation_error, w')
    /\ flamenco_status_ping (window_manager w') = "..."
    /\ scene w' = scene (Samples.selected "render" "gpu")
    /\ cache_file w' = cache_file (Samples.selected "render" "gpu").
Proof.
  apply (refresh_lets_other_exceptions_through
           (Samples.client_of (Samples.failing Samples.validation_error))
           (Samples.selected "render" "gpu") Samples.validation_error);
    reflexivity.
Defined.

(** X18. A refresh in which one of the four calls raises clears no
    selection and writes no cache file: the two selections and the file
    are as they were. When the call raised an [ApiException] or an
    [HTTPError], the refresh returns a report at level ERROR, which is
    the status line. *)
Theorem failed_refresh_keeps_selections_and_file (api_client : ApiClient)
  (w : World) (ex : exn) :
  first_failure (remote api_client) (lower (platform_system w)) = Some ex ->
  exists result w',
    comms.ping_manager api_client w = (result, w')
    /\ scene w' = scene w
    /\ cache_file w' = cache_file w
    /\ (transport_or_api_error ex = true ->
        exists report,
          result = Ok (report, "ERROR")
          /\ flamenco_status_ping (window_manager w') = report).
Proof.
  intros F.
  destruct (ping_manager_failed api_client w ex F) as [raised [P [C _]]].
  destruct (isinstance raised FetchError) eqn:I.
  - eexists. eexists. split; [exact P|]. repeat split.
    intros _. eexists. split; reflexivity.
  - eexists. eexists. split; [exact P|]. repeat split. intros T.
    specialize (C T). unfold isinstance in I. rewrite C in I. discriminate.
Qed.

Lemma failed_refresh_keeps_selections_and_file_witness :
  exists w',
    comms.ping_manager
      (Samples.client_of (Samples.failing Samples.max_retries))
      (Samples.selected "render" "gpu")
    = (Ok ("Manager cannot be reached", "ERROR"), w')
    /\ scene w' = scene (Samples.selected "render" "gpu")
    /\ cache_file w' = Contents "{}".
Proof.
  destruct (failed_refresh_keeps_selections_and_file
              (Samples.client_of (Samples.failing Samples.max_retries))
              (Samples.selected "render" "gpu") Samples.max_retries eq_refl)
    as [result [w' [P [S [F _]]]]].
  exists w'. split; [|split; [exact S|exact F]].
  rewrite P. apply (f_equal (fun r => (r, w'))).
  apply (f_equal fst) in P. symmetry. exact P.
Defined.



(** X20. [ping_manager] uses the API client it is handed and no other:
    whatever the Manager answers, it leaves the stored client as it is,
    makes no client and closes none. *)
Theorem refresh_keeps_to_its_own (api_client : ApiClient) (w : World) :
  let w' := snd (comms.ping_manager api_client w) in
  _flamenco_client w' = _flamenco_client w
  /\ objects w' = objects w
  /\ closed w' = closed w.
Proof.
  destruct (first_failure (remote api_client) (lower (platform_system w)))
    as [ex|] eqn:F.
  - destruct (ping_manager_failed api_client w ex F) as [raised [P _]].
    rewrite P. destruct (isinstance raised FetchError); repeat split.
  - apply (snapshot_first_failure api_client w) in F as [info S].
    destruct (ping_manager_fetched_world api_client w info S)
      as [w1 [P W]]. cbv zeta in W. rewrite P. cbn [snd].
    repeat split;
      [apply (f_equal _flamenco_client) in W
      |apply (f_equal objects) in W
      |apply (f_equal closed) in W]; exact W.
Qed.

(** ** The API client *)

Lemma rstrip_splits (ch : ascii) (s : string) :
  exists stripped, s = rstrip ch s ++ stripped /\ only ch stripped = true.
Proof.
  induction s as [|c s [t [E O]]]; [exists ""; split; reflexivity|].
  cbn [rstrip]. destruct (rstrip ch s) as [|a r].
  - cbn [append] in E. subst t. destruct (Ascii.eqb c ch) eqn:C.
    + exists (String c s). split; [reflexivity|]. cbn [only].
      rewrite C, O. reflexivity.
    + exists s. split; [reflexivity|exact O].
  - exists t. split; [|exact O]. cbn [append]. f_equal. exact E.
Qed.

Lemma rstrip_ends (ch : ascii) (s : string) :
  ends_with ch (rstrip ch s) = false.
Proof.
  induction s as [|c s IH]; [reflexivity|].
  cbn [rstrip]. destruct (rstrip ch s) as [|a r].
  - destruct (Ascii.eqb c ch) eqn:C; [reflexivity|exact C].
  - exact IH.
Qed.

Lemma rstrip_only (ch : ascii) (s : string) :
  only ch s = true -> rstrip ch s = "".
Proof.
  induction s as [|c s IH]; [reflexivity|]. cbn [only rstrip].
  intros O. apply andb_true_iff in O as [C O]. rewrite (IH O), C.
  reflexivity.
Qed.

Lemma rstrip_app_only (ch : ascii) (s t : string) :
  only ch t = true -> rstrip ch (s ++ t) = rstrip ch s.
Proof.
  intros O. induction s as [|c s IH]; cbn [append rstrip].
  - apply rstrip_only, O.
  - rewrite IH. reflexivity.
Qed.

(** X21. The host of a client that [flamenco_api_client] makes is the URL
    without its trailing slashes, all of them and nothing else; so two
    URLs that differ in trailing slashes only make clients of the same
    host, while the log names the URL as it was given. *)
Theorem api_client_host_is_the_url_without_trailing_slashes
  (manager_url : string) (w : World) :
  _flamenco_client w = None ->
  exists client w' slashes,
    comms.flamenco_api_client manager_url w = (Ok client, w')
    /\ manager_url = host (configuration client) ++ slashes
    /\ only "/" slashes = true
    /\ ends_with "/" (host (configuration client)) = false
    /\ (forall more,
          only "/" more = true ->
          fst (comms.flamenco_api_client (manager_url ++ more) w)
          = Ok client)
    /\ log w' = List.app (log w)
                  ["created API client for Manager at " ++ manager_url].
Proof.
  intros C. destruct (rstrip_splits "/" manager_url) as [slashes [E O]].
  unfold comms.flamenco_api_client, comms.new_ApiClient, comms.info. run.
  rewrite C. eexists. eexists. exists slashes.
  split; [reflexivity|]. cbn [configuration host log set_flamenco_client
                              set_objects set_log].
  split; [exact E|]. split; [exact O|]. split; [apply rstrip_ends|].
  split; [|reflexivity]. intros more M. cbn [fst].
  rewrite (rstrip_app_only _ _ _ M). reflexivity.
Qed.

Lemma api_client_host_is_the_url_without_trailing_slashes_witness :
  exists client w' slashes,
    comms.flamenco_api_client "http://flamenco.local:8080//" Samples.fresh
    = (Ok client, w')
    /\ "http://flamenco.local:8080//" = host (configuration client) ++ slashes
    /\ only "/" slashes = true
    /\ ends_with "/" (host (configuration client)) = false
    /\ (forall more,
          only "/" more = true ->
          fst (comms.flamenco_api_client
                 ("http://flamenco.local:8080//" ++ more) Samples.fresh)
          = Ok client)
    /\ log w' = ["created API client for Manager at "
                   ++ "http://flamenco.local:8080//"].
Proof.
  apply (api_client_host_is_the_url_without_trailing_slashes
           "http://flamenco.local:8080//" Samples.fresh).
  reflexivity.
Defined.

(** X22. [discard_flamenco_data] always returns, leaves no client, and
    does nothing when called again. It closes the client there was and
    logs that once. The snapshot in memory, the cache file and the
    selections are not discarded. *)
Theorem discard_closes_the_client_only (w : World) :
  let w1 := snd (comms.discard_flamenco_data w) in
  fst (comms.discard_flamenco_data w) = Ok tt
  /\ _flamenco_client w1 = None
  /\ comms.discard_flamenco_data w1 = (Ok tt, w1)
  /\ _cached_manager_info w1 = _cached_manager_info w
  /\ cache_file w1 = cache_file w
  /\ scene w1 = scene w
  /\ match _flamenco_client w with
     | Some client =>
         closed w1 = client_id client :: closed w
         /\ log w1 = (log w ++ ["closing Flamenco client"])%list
     | None => w1 = w
     end.
Proof.
  unfold comms.discard_flamenco_data, comms.info. run.
  destruct (_flamenco_client w) as [client|] eqn:C; cbn [fst snd].
  - cbn [_flamenco_client set_flamenco_client]. repeat split.
  - rewrite C. repeat split.
Qed.

(** X23. The URL of the Manager can change only across a discard: the
    client made for one URL is closed by [discard_flamenco_data], and
    the next call of [flamenco_api_client] makes another object, for the
    host of the URL it is given. *)
Theorem discard_lets_the_url_change (url1 url2 : string) (w : World) :
  _flamenco_client w = None ->
  exists c1 w1 c2 w2,
    comms.flamenco_api_client url1 w = (Ok c1, w1)
    /\ comms.flamenco_api_client url2 (snd (comms.discard_flamenco_data w1))
       = (Ok c2, w2)
    /\ host (configuration c2) = rstrip "/" url2
    /\ remote c2 = network w (rstrip "/" url2)
    /\ client_id c2 <> client_id c1
    /\ In (client_id c1) (closed w2)
    /\ _flamenco_client w2 = Some c2.
Proof.
  intros C.
  unfold comms.flamenco_api_client, comms.discard_flamenco_data,
    comms.new_ApiClient, comms.info. run.
  rewrite C. eexists. eexists.
  cbn [_flamenco_client set_flamenco_client set_objects set_log set_closed
       snd objects network closed client_id].
  eexists. eexists. split; [reflexivity|]. split; [reflexivity|].
  cbn [configuration host remote client_id _flamenco_client closed
       set_flamenco_client set_log].
  repeat split.
  - apply Nat.neq_succ_diag_l.
  - left. reflexivity.
Qed.

Lemma discard_lets_the_url_change_witness :
  exists c1 w1 c2 w2,
    comms.flamenco_api_client "http://old:8080/" Samples.fresh = (Ok c1, w1)
    /\ comms.flamenco_api_client "http://new:8080/"
         (snd (comms.discard_flamenco_data w1))
       = (Ok c2, w2)
    /\ host (configuration c2) = rstrip "/" "http://new:8080/"
    /\ remote c2 = network Samples.fresh (rstrip "/" "http://new:8080/")
    /\ client_id c2 <> client_id c1
    /\ In (client_id c1) (closed w2)
    /\ _flamenco_client w2 = Some c2.
Proof.
  apply (discard_lets_the_url_change "http://old:8080/" "http://new:8080/"
           Samples.fresh).
  reflexivity.
Defined.

(** ** The exceptions of the cache *)




